(** * Smart Leak Analyzer: a shallow embedding of [smart-leak-analyzer.py]

    The script chains three blocking network calls (search, listing,
    preview/view) of a breach-intelligence API with one chat completion of a
    language model, and prints what it finds.  The embedding below follows
    the source function by function:

    - Python values are the inductive [value]; a Python [str] is the list of
      its code points;
    - exceptions are explicit: a computation returns [Ok v] or [Raise e], and
      [try_except] is the [try: ... except Exception] of the source;
    - the network is an oracle of the history of events so far, so every
      theorem holds whatever the remote services answer;
    - each [print] and [log] call site is one constructor of [event], which
      carries the values interpolated in the message. *)

From Stdlib Require Import List ZArith NArith Bool Lia String Ascii.
Import ListNotations.

Set Implicit Arguments.
Set Warnings "-register-all".

(** ** Python strings *)

(** A Python [str] is a sequence of Unicode code points. *)
Definition pystr := list N.

(** The [str] of an ASCII literal of the source. *)
Definition py (s : string) : pystr :=
  List.map N_of_ascii (list_ascii_of_string s).

Definition pystr_eqb (a b : pystr) : bool :=
  if list_eq_dec N.eq_dec a b then true else false.

Lemma pystr_eqb_eq (a b : pystr) : pystr_eqb a b = true <-> a = b.
Proof.
  unfold pystr_eqb. destruct (list_eq_dec N.eq_dec a b); split; congruence.
Qed.


(** Characters the script and the JSON decoder look at. *)
Definition c_quote : N := 34.      (* the double quote *)
Definition c_backslash : N := 92.
Definition c_lbrace : N := 123.    (* { *)
Definition c_rbrace : N := 125.    (* } *)
Definition c_lbracket : N := 91.   (* [ *)
Definition c_rbracket : N := 93.   (* ] *)
Definition c_colon : N := 58.
Definition c_comma : N := 44.
Definition c_minus : N := 45.
Definition c_plus : N := 43.
Definition c_dot : N := 46.

(** ** Python values *)

(** A Python [float] read from a decimal literal: the value
    [(-1)^neg * mant * 10^exp10] before rounding to binary64, or one of the
    three constants the JSON decoder accepts.  The script only observes the
    truth value of a float and interpolates it in messages. *)
Inductive pyfloat :=
| FNaN
| FInf (neg : bool)
| FDec (neg : bool) (mant : N) (exp10 : Z).

(** The values the script handles: what [json] produces, and [None]. *)
Inductive value :=
| VNone
| VBool (b : bool)
| VInt (z : Z)
| VFloat (f : pyfloat)
| VStr (s : pystr)
| VList (l : list value)
| VDict (d : list (pystr * value)).

(** A [dict] keeps its keys in insertion order; a key occurs once. *)
Definition dict := list (pystr * value).

Fixpoint dict_lookup (k : pystr) (d : dict) : option value :=
  match d with
  | [] => None
  | (k', v) :: d' => if pystr_eqb k k' then Some v else dict_lookup k d'
  end.

(** [d[k] = v]: an existing key keeps its place and takes the new value. *)
Fixpoint dict_set (k : pystr) (v : value) (d : dict) : dict :=
  match d with
  | [] => [(k, v)]
  | (k', v') :: d' =>
      if pystr_eqb k k' then (k', v) :: d' else (k', v') :: dict_set k v d'
  end.

(** A decimal [m * 10^e] rounds to the float zero when it is zero or at most
    half the least subnormal, [2^-1075] (the tie goes to the even zero). *)
Definition float_is_zero (f : pyfloat) : bool :=
  match f with
  | FNaN | FInf _ => false
  | FDec _ m e =>
      if (m =? 0)%N then true
      else if (0 <=? e)%Z then false
      else (Z.of_N m * 2 ^ 1075 <=? 10 ^ (- e))%Z
  end.

(** Python's truth value testing, [bool(v)]. *)
Definition truthy (v : value) : bool :=
  match v with
  | VNone => false
  | VBool b => b
  | VInt z => negb (z =? 0)%Z
  | VFloat f => negb (float_is_zero f)
  | VStr s => match s with [] => false | _ => true end
  | VList l => match l with [] => false | _ => true end
  | VDict d => match d with [] => false | _ => true end
  end.

(** [v == s] for a string literal [s]: only an equal [str] compares equal. *)
Definition eq_str (v : value) (s : pystr) : bool :=
  match v with
  | VStr t => pystr_eqb t s
  | _ => false
  end.

(** ** Exceptions *)

(** The subclasses of [Exception] that matter here; [ExternalError] stands
    for whatever a library raises (timeouts, connection errors, API
    errors), told apart by a tag. *)
Inductive exc :=
| AttributeError
| TypeError
| IndexError
| JSONDecodeError
| ExternalError (tag : N).

(** [SystemExit] derives from [BaseException] only: no [except Exception]
    of the script catches it. *)
Inductive exn :=
| SystemExit (code : Z)
| Exception (e : exc).

Inductive result (A : Type) :=
| Ok (a : A)
| Raise (e : exn).
Arguments Ok {A} a.
Arguments Raise {A} e.

(** What a call into a library gives back: a value or an [Exception]. *)
Inductive outcome (A : Type) :=
| Returns (a : A)
| Throws (e : exc).
Arguments Returns {A} a.
Arguments Throws {A} e.

(** ** The pattern search of [analyze_dump] *)

(** The longest prefix of [s] that ends with a closing brace: what the greedy
    [[\s\S]*}] matches at the start of [s] after backtracking. *)
Fixpoint upto_last_rbrace (s : pystr) : option pystr :=
  match s with
  | [] => None
  | c :: t =>
      match upto_last_rbrace t with
      | Some p => Some (c :: p)
      | None => if (c =? c_rbrace)%N then Some [c] else None
      end
  end.

(** [re.search(r'({[\s\S]*})', s)] followed by [group(1)]: the start
    positions are tried from the left; at an opening brace the greedy body
    runs to the last closing brace. *)
Fixpoint re_search_braces (s : pystr) : option pystr :=
  match s with
  | [] => None
  | c :: t =>
      if (c =? c_lbrace)%N then
        match upto_last_rbrace t with
        | Some p => Some (c :: p)
        | None => re_search_braces t
        end
      else re_search_braces t
  end.

(** ** The JSON decoder

    [json.loads] is library code; the model below follows the decoder of
    CPython's [json] package ([scanstring], [JSONObject], [JSONArray], the
    number pattern, the constants) over code points.  The recursion is
    bounded by the length of the text, which is enough
    ([scan_once_enough_fuel]).  Not modelled: the interpreter's recursion
    limit and its limit on the digits of an integer literal, both of which
    surface as exceptions in Python. *)

Definition is_ws (c : N) : bool :=
  ((c =? 32) || (c =? 9) || (c =? 10) || (c =? 13))%N.

Fixpoint skip_ws (s : pystr) : pystr :=
  match s with
  | c :: t => if is_ws c then skip_ws t else s
  | [] => []
  end.

Definition is_digit (c : N) : bool := ((48 <=? c) && (c <=? 57))%N.

Definition hex_val (c : N) : option N :=
  if is_digit c then Some (c - 48)%N
  else if ((97 <=? c) && (c <=? 102))%N then Some (c - 87)%N
  else if ((65 <=? c) && (c <=? 70))%N then Some (c - 55)%N
  else None.

(** The four hexadecimal digits of a [\uXXXX] escape. *)
Definition hex4 (s : pystr) : option (N * pystr) :=
  match s with
  | a :: b :: c :: d :: r =>
      match hex_val a, hex_val b, hex_val c, hex_val d with
      | Some x, Some y, Some z, Some w =>
          Some (((x * 16 + y) * 16 + z) * 16 + w, r)%N
      | _, _, _, _ => None
      end
  | _ => None
  end.

Definition is_high_surrogate (u : N) : bool := ((55296 <=? u) && (u <=? 56319))%N.
Definition is_low_surrogate (u : N) : bool := ((56320 <=? u) && (u <=? 57343))%N.
Definition join_surrogates (hi lo : N) : N :=
  (65536 + ((hi - 55296) * 1024 + (lo - 56320)))%N.

(** The one-letter escapes of a JSON string. *)
Definition unescape (e : N) : option N :=
  if (e =? c_quote)%N then Some c_quote
  else if (e =? c_backslash)%N then Some c_backslash
  else if (e =? 47)%N then Some 47%N         (* / *)
  else if (e =? 98)%N then Some 8%N          (* b *)
  else if (e =? 102)%N then Some 12%N        (* f *)
  else if (e =? 110)%N then Some 10%N        (* n *)
  else if (e =? 114)%N then Some 13%N        (* r *)
  else if (e =? 116)%N then Some 9%N         (* t *)
  else None.

(** [scanstring] in strict mode, from the character after the opening quote:
    the decoded string and the text after the closing quote.  [acc] holds
    the decoded characters in reverse. *)
Fixpoint scanstring (fuel : nat) (s acc : pystr) : option (pystr * pystr) :=
  match fuel with
  | O => None
  | S f =>
      match s with
      | [] => None
      | c :: t =>
          if (c =? c_quote)%N then Some (rev acc, t)
          else if (c =? c_backslash)%N then
            match t with
            | [] => None
            | e :: t' =>
                if (e =? 117)%N then          (* \u *)
                  match hex4 t' with
                  | None => None
                  | Some (u, r) =>
                      if is_high_surrogate u then
                        match r with
                        | b :: e2 :: r' =>
                            if ((b =? c_backslash) && (e2 =? 117))%N then
                              match hex4 r' with
                              | None => None
                              | Some (u2, r2) =>
                                  if is_low_surrogate u2
                                  then scanstring f r2 (join_surrogates u u2 :: acc)
                                  else scanstring f r (u :: acc)
                              end
                            else scanstring f r (u :: acc)
                        | _ => scanstring f r (u :: acc)
                        end
                      else scanstring f r (u :: acc)
                  end
                else
                  match unescape e with
                  | Some ch => scanstring f t' (ch :: acc)
                  | None => None
                  end
            end
          else if (c <? 32)%N then None       (* control character *)
          else scanstring f t (c :: acc)
      end
  end.

Fixpoint take_digits (s : pystr) : list N * pystr :=
  match s with
  | c :: t =>
      if is_digit c then let (ds, r) := take_digits t in (c :: ds, r)
      else ([], s)
  | [] => ([], [])
  end.

Definition digits_to_N (ds : list N) : N :=
  fold_left (fun a c => (a * 10 + (c - 48))%N) ds 0%N.

(** The integer part of the number pattern, [0|[1-9][0-9]*]. *)
Definition match_int_part (s : pystr) : option (list N * pystr) :=
  match s with
  | d :: t =>
      if (d =? 48)%N then Some ([d], t)
      else if is_digit d then Some (take_digits s)
      else None
  | [] => None
  end.

(** The optional fraction, [(\.[0-9]+)?]. *)
Definition match_frac (s : pystr) : list N * pystr :=
  match s with
  | c :: t =>
      if (c =? c_dot)%N then
        match take_digits t with
        | ([], _) => ([], s)
        | (fs, r) => (fs, r)
        end
      else ([], s)
  | [] => ([], s)
  end.

(** The optional exponent, [([eE][-+]?[0-9]+)?]. *)
Definition match_exp (s : pystr) : option Z * pystr :=
  match s with
  | c :: t =>
      if ((c =? 101) || (c =? 69))%N then
        let '(sgn, t') :=
          match t with
          | g :: u =>
              if (g =? c_minus)%N then ((-1)%Z, u)
              else if (g =? c_plus)%N then (1%Z, u)
              else (1%Z, t)
          | [] => (1%Z, t)
          end in
        match take_digits t' with
        | ([], _) => (None, s)
        | (es, r) => (Some (sgn * Z.of_N (digits_to_N es))%Z, r)
        end
      else (None, s)
  | [] => (None, s)
  end.

(** [NUMBER_RE.match]: an [int] when there is neither fraction nor exponent,
    a [float] otherwise. *)
Definition match_number (s : pystr) : option (value * pystr) :=
  let '(neg, s1) :=
    match s with
    | c :: t => if (c =? c_minus)%N then (true, t) else (false, s)
    | [] => (false, s)
    end in
  match match_int_part s1 with
  | None => None
  | Some (ds, r1) =>
      let '(fs, r2) := match_frac r1 in
      let '(ex, r3) := match_exp r2 in
      match fs, ex with
      | [], None =>
          let n := Z.of_N (digits_to_N ds) in
          Some (VInt (if neg then (- n)%Z else n), r3)
      | _, _ =>
          let e := match ex with Some e => e | None => 0%Z end in
          Some (VFloat (FDec neg (digits_to_N (ds ++ fs))
                             (e - Z.of_nat (List.length fs))), r3)
      end
  end.

Fixpoint strip_prefix (p s : pystr) : option pystr :=
  match p, s with
  | [], _ => Some s
  | a :: p', b :: s' => if (a =? b)%N then strip_prefix p' s' else None
  | _ :: _, [] => None
  end.

(** The scalars of [scan_once], tried in the decoder's order. *)
Definition scan_atom (s : pystr) : option (value * pystr) :=
  match strip_prefix (py "null") s with
  | Some r => Some (VNone, r)
  | None =>
  match strip_prefix (py "true") s with
  | Some r => Some (VBool true, r)
  | None =>
  match strip_prefix (py "false") s with
  | Some r => Some (VBool false, r)
  | None =>
  match match_number s with
  | Some vr => Some vr
  | None =>
  match strip_prefix (py "NaN") s with
  | Some r => Some (VFloat FNaN, r)
  | None =>
  match strip_prefix (py "Infinity") s with
  | Some r => Some (VFloat (FInf false), r)
  | None =>
  match strip_prefix (py "-Infinity") s with
  | Some r => Some (VFloat (FInf true), r)
  | None => None
  end end end end end end end.

(** [scan_once] reads one value at the start of [s]; [object_pairs] is the
    loop of [JSONObject], entered after the opening quote of a key;
    [array_items] is the loop of [JSONArray], entered at the start of an
    item (its accumulator is reversed). *)
Fixpoint scan_once (fuel : nat) (s : pystr) {struct fuel}
  : option (value * pystr) :=
  match fuel with
  | O => None
  | S f =>
      match s with
      | [] => None
      | c :: t =>
          if (c =? c_quote)%N then
            match scanstring (List.length t) t [] with
            | Some (k, r) => Some (VStr k, r)
            | None => None
            end
          else if (c =? c_lbrace)%N then
            match skip_ws t with
            | c' :: t' =>
                if (c' =? c_rbrace)%N then Some (VDict [], t')
                else if (c' =? c_quote)%N then
                  match object_pairs f t' [] with
                  | Some (d, r) => Some (VDict d, r)
                  | None => None
                  end
                else None
            | [] => None
            end
          else if (c =? c_lbracket)%N then
            match skip_ws t with
            | c' :: t' =>
                if (c' =? c_rbracket)%N then Some (VList [], t')
                else
                  match array_items f (c' :: t') [] with
                  | Some (l, r) => Some (VList l, r)
                  | None => None
                  end
            | [] => None
            end
          else scan_atom s
      end
  end

with object_pairs (fuel : nat) (s : pystr) (acc : dict) {struct fuel}
  : option (dict * pystr) :=
  match fuel with
  | O => None
  | S f =>
      match scanstring (List.length s) s [] with
      | None => None
      | Some (key, r) =>
          match skip_ws r with
          | c :: r1 =>
              if (c =? c_colon)%N then
                match scan_once f (skip_ws r1) with
                | None => None
                | Some (v, r2) =>
                    let acc' := dict_set key v acc in
                    match skip_ws r2 with
                    | c2 :: r3 =>
                        if (c2 =? c_rbrace)%N then Some (acc', r3)
                        else if (c2 =? c_comma)%N then
                          match skip_ws r3 with
                          | c3 :: r4 =>
                              if (c3 =? c_quote)%N
                              then object_pairs f r4 acc'
                              else None
                          | [] => None
                          end
                        else None
                    | [] => None
                    end
                end
              else None
          | [] => None
          end
      end
  end

with array_items (fuel : nat) (s : pystr) (acc : list value) {struct fuel}
  : option (list value * pystr) :=
  match fuel with
  | O => None
  | S f =>
      match scan_once f s with
      | None => None
      | Some (v, r) =>
          match skip_ws r with
          | c :: r1 =>
              if (c =? c_rbracket)%N then Some (rev (v :: acc), r1)
              else if (c =? c_comma)%N
              then array_items f (skip_ws r1) (v :: acc)
              else None
          | [] => None
          end
      end
  end.

(** [json.loads(s)]: a leading byte order mark is refused, white space
    around the one value is skipped, anything after it is an error. *)
Definition json_loads (s : pystr) : outcome value :=
  match s with
  | 65279%N :: _ => Throws JSONDecodeError
  | _ =>
      let s' := skip_ws s in
      match scan_once (List.length s') s' with
      | Some (v, r) =>
          match skip_ws r with
          | [] => Returns v
          | _ :: _ => Throws JSONDecodeError
          end
      | None => Throws JSONDecodeError
      end
  end.

(** ** Operations on Python values *)

(** [d.get(k, default)] of a [dict]. *)
Definition dict_get (d : dict) (k : pystr) (default : value) : value :=
  match dict_lookup k d with
  | Some x => x
  | None => default
  end.

(** [v.get(k, default)]: only a [dict] has the method. *)
Definition py_get (v : value) (k : pystr) (default : value) : outcome value :=
  match v with
  | VDict d => Returns (dict_get d k default)
  | _ => Throws AttributeError
  end.

(** [len(v)]. *)
Definition py_len (v : value) : outcome nat :=
  match v with
  | VStr s => Returns (List.length s)
  | VList l => Returns (List.length l)
  | VDict d => Returns (List.length d)
  | _ => Throws TypeError
  end.

(** [v[:n]]: sequences are sliced; a [dict] and the scalars refuse the
    slice (which exception a [dict] raises depends on the interpreter
    version; it is an [Exception] in all of them). *)
Definition py_slice (n : nat) (v : value) : outcome value :=
  match v with
  | VStr s => Returns (VStr (firstn n s))
  | VList l => Returns (VList (firstn n l))
  | _ => Throws TypeError
  end.

(** The items a [for] loop over [v] visits. *)
Definition py_iter (v : value) : outcome (list value) :=
  match v with
  | VList l => Returns l
  | VStr s => Returns (List.map (fun c => VStr [c]) s)
  | VDict d => Returns (List.map (fun kv => VStr (fst kv)) d)
  | _ => Throws TypeError
  end.

(** [enumerate(l)]. *)
Definition enumerate (A : Type) (l : list A) : list (nat * A) :=
  combine (seq 0 (List.length l)) l.

(** What [os.getenv] returns, as a value. *)
Definition env_value (o : option pystr) : value :=
  match o with
  | Some s => VStr s
  | None => VNone
  end.

(** ** Requests, responses and events *)

(** [self.headers] of the search service: the key is its one entry that is
    not a constant. *)
Record IntelXService := { x_key : value }.

Record AIAnalyzer := { active : bool }.

(** The four HTTP calls of [IntelXService]; the fixed parts of each (bucket
    list, [maxresults] 20, sort order, [limit] 20, [offset] 0, [f] 0, the
    timeouts of 10, 10 and 15 seconds) are left out. *)
Inductive request :=
| PostSearch (self : IntelXService) (term : pystr)
| GetSearchResult (self : IntelXService) (search_id : value)
| GetFilePreview (self : IntelXService) (did : value)
| GetFileView (self : IntelXService) (storageid bucket k : value).

(** What the script reads of a [requests] response; [json] is the outcome
    of [res.json()]. *)
Record response := {
  status_code : Z;
  text : pystr;
  json : outcome value
}.

(** A chat completion, reduced to what the script reads: the
    [message.content] of each choice, absent when the message has no
    text. *)
Definition completion := list (option pystr).

Inductive log_type := LInfo | LSuccess | LError | LWarn.

Inductive color := RED | YELLOW.

(** One constructor per [log] call site, with the interpolated values. *)
Inductive message :=
| MsgIntelxKeyMissing                (* "Variavel INTELX_KEY nao configurada." *)
| MsgSearching (term : pystr)        (* "Buscando vazamentos para: ..." *)
| MsgSearchStatus (code : Z)         (* "Erro na busca IntelX: ..." *)
| MsgSearchException (e : exc)       (* "Excecao IntelX: ..." *)
| MsgOpenAIKeyMissing                (* "... A analise IA sera pulada." *)
| MsgAIError (e : exc)               (* "Erro na analise IA: ..." *)
| MsgNoResult                        (* "Nenhum resultado encontrado ..." *)
| MsgFound (n : nat)                 (* "Encontrados n registros. ..." *)
| MsgAnalysingFile (idx : nat) (name date : value)
| MsgInaccessible                    (* "Conteudo inacessivel ou vazio." *)
| MsgSendingToAI                     (* "Enviando para analise de IA..." *)
| MsgNoAnalysis.                     (* "IA nao retornou analise ..." *)

(** One constructor per direct [print] call site. *)
Inductive line :=
| Banner
| Separator
| PreviewRaw (snippet : value)
| RiskLine (c : color) (risk : value)
| SummaryLine (summary : value)
| CredentialsHeader (n : nat)
| CredentialLine (email secret : value).

Inductive event :=
| EvLog (m : message) (type : log_type)
| EvPrint (l : line)
| EvHttp (r : request)
| EvChat (snippet : pystr).

Definition trace := list event.

(** The environment of one run: the two environment variables, the outcome
    of building the language-model client at import time, and the answers of
    the two remote services, which may depend on everything that happened
    before. *)
Record world := {
  INTELX_API_KEY : option pystr;
  OPENAI_API_KEY : option pystr;
  OpenAI_client : option pystr -> outcome unit;
  http : trace -> request -> outcome response;
  chat : trace -> pystr -> outcome completion
}.

(** ** The monad of the script

    A computation reads the history of the run and returns a result with the
    events it added. *)
Definition M (A : Type) := trace -> result A * trace.

Definition ret (A : Type) (a : A) : M A := fun _ => (Ok a, []).

Definition bind (A B : Type) (m : M A) (f : A -> M B) : M B :=
  fun h =>
    match m h with
    | (Ok a, e1) => let (r, e2) := f a (h ++ e1) in (r, e1 ++ e2)
    | (Raise x, e1) => (Raise x, e1)
    end.

Definition raise (A : Type) (x : exn) : M A := fun _ => (Raise x, []).
Arguments raise {A} x.

Definition emit (e : event) : M unit := fun _ => (Ok tt, [e]).

(** [try: body / except Exception as e: handler e]. *)
Definition try_except (A : Type) (body : M A) (handler : exc -> M A) : M A :=
  fun h =>
    match body h with
    | (Raise (Exception e), e1) =>
        let (r, e2) := handler e (h ++ e1) in (r, e1 ++ e2)
    | other => other
    end.

Definition lift (A : Type) (o : outcome A) : M A :=
  match o with
  | Returns a => ret a
  | Throws e => raise (Exception e)
  end.

Declare Scope py_scope.
Delimit Scope py_scope with py_scope.
Notation "x <- m ;; k" := (bind m (fun x => k))
  (at level 100, m at next level, right associativity) : py_scope.
Notation "m ;; k" := (bind m (fun _ => k))
  (at level 100, right associativity) : py_scope.
Open Scope py_scope.

Fixpoint for_each (A : Type) (body : A -> M unit) (l : list A) : M unit :=
  match l with
  | [] => ret tt
  | x :: r => body x ;; for_each body r
  end.

(** [log(msg, type)] prints one prefixed line. *)
Definition log (msg : message) (type : log_type) : M unit :=
  emit (EvLog msg type).

Definition print (l : line) : M unit := emit (EvPrint l).

(** [sys.exit(code)]. *)
Definition sys_exit (A : Type) (code : Z) : M A := raise (SystemExit code).
Arguments sys_exit {A} code.

(** [raw_response = completion.choices[0].message.content]. *)
Definition first_content (c : completion) : outcome (option pystr) :=
  match c with
  | m :: _ => Returns m
  | [] => Throws IndexError
  end.

(** [re.search(pattern, raw)] and [group(1)] of the match: the search
    refuses an argument that is not a string. *)
Definition re_search (raw : option pystr) : outcome (option pystr) :=
  match raw with
  | Some s => Returns (re_search_braces s)
  | None => Throws TypeError
  end.

(** The number of characters of the content sent to the model,
    [content[:3000]]. *)
Definition snippet_chars : nat := 3000.

(** [prompt + "\n" + snippet]: the user message, kept as its snippet. *)
Definition user_content (snippet : value) : outcome pystr :=
  match snippet with
  | VStr s => Returns s
  | _ => Throws TypeError
  end.

Section Pipeline.

Variable w : world.

(** A call of [requests.post] or [requests.get]. *)
Definition requests (r : request) : M response :=
  emit (EvHttp r) ;; fun h => lift (http w h r) h.

(** [LLM_CLIENT.chat.completions.create(...)] with the fixed system
    message, the model of the configuration and temperature 0.2. *)
Definition chat_completions_create (user : pystr) : M completion :=
  emit (EvChat user) ;; fun h => lift (chat w h user) h.

Definition IntelXService_init : M IntelXService :=
  let key := env_value (INTELX_API_KEY w) in
  if negb (truthy key) then
    log MsgIntelxKeyMissing LError ;;
    sys_exit 1
  else ret {| x_key := key |}.

Definition search (self : IntelXService) (term : pystr) : M value :=
  log (MsgSearching term) LInfo ;;
  try_except
    (res <- requests (PostSearch self term) ;;
     if (status_code res =? 200)%Z then
       body <- lift (json res) ;;
       lift (py_get body (py "id") VNone)
     else
       log (MsgSearchStatus (status_code res)) LError ;;
       ret VNone)
    (fun e =>
       log (MsgSearchException e) LError ;;
       ret VNone).

Definition get_results (self : IntelXService) (search_id : value) : M value :=
  try_except
    (res <- requests (GetSearchResult self search_id) ;;
     if (status_code res =? 200)%Z then
       body <- lift (json res) ;;
       lift (py_get body (py "records") (VList []))
     else ret (VList []))
    (fun _ => ret (VList [])).

Definition get_preview (self : IntelXService) (item : value) : M value :=
  (* the unused [params] of the source reads the three fields first *)
  _ <- lift (py_get item (py "did") VNone) ;;
  _ <- lift (py_get item (py "storageid") VNone) ;;
  _ <- lift (py_get item (py "bucket") VNone) ;;
  try_except
    (did <- lift (py_get item (py "did") VNone) ;;
     res <- requests (GetFilePreview self did) ;;
     if ((status_code res =? 200)%Z && (10 <? List.length (text res)))%bool
     then ret (VStr (text res))
     else
       storageid <- lift (py_get item (py "storageid") VNone) ;;
       bucket <- lift (py_get item (py "bucket") VNone) ;;
       res_view <- requests (GetFileView self storageid bucket
                               (env_value (INTELX_API_KEY w))) ;;
       if (status_code res_view =? 200)%Z
       then ret (VStr (text res_view))
       else ret VNone)
    (fun _ => ret VNone).

Definition AIAnalyzer_init : M AIAnalyzer :=
  if negb (truthy (env_value (OPENAI_API_KEY w))) then
    log MsgOpenAIKeyMissing LWarn ;;
    ret {| active := false |}
  else ret {| active := true |}.

Definition analyze_dump (self : AIAnalyzer) (content : value) : M value :=
  if negb (active self) then ret VNone
  else
    snippet <- lift (py_slice snippet_chars content) ;;
    try_except
      (user <- lift (user_content snippet) ;;
       completion <- chat_completions_create user ;;
       raw_response <- lift (first_content completion) ;;
       json_match <- lift (re_search raw_response) ;;
       match json_match with
       | Some group1 => lift (json_loads group1)
       | None => ret VNone
       end)
      (fun e =>
         log (MsgAIError e) LError ;;
         ret VNone).

(** The line printed for one credential. *)
Definition print_credential (c : value) : M unit :=
  email <- lift (py_get c (py "email") VNone) ;;
  password <- lift (py_get c (py "password") VNone) ;;
  secret <- (if truthy password then ret password
             else lift (py_get c (py "hash_type") VNone)) ;;
  print (CredentialLine email secret).

(** The body of the loop of [main] for one [(idx, item)]. *)
Definition main_loop_body (intelx : IntelXService) (ai : AIAnalyzer)
  (entry : nat * value) : M unit :=
  let (idx, item) := entry in
  name <- lift (py_get item (py "name") (VStr (py "Unknown"))) ;;
  date <- lift (py_get item (py "date") (VStr (py "Unknown"))) ;;
  print Separator ;;
  log (MsgAnalysingFile (idx + 1) name date) LInfo ;;
  content <- get_preview intelx item ;;
  if negb (truthy content) then
    log MsgInaccessible LWarn               (* continue *)
  else
    snippet <- lift (py_slice 100 content) ;;
    print (PreviewRaw snippet) ;;
    log MsgSendingToAI LInfo ;;
    analysis <- analyze_dump ai content ;;
    if truthy analysis then
      risk <- lift (py_get analysis (py "risk_level") (VStr (py "Unknown"))) ;;
      let color_risk := if eq_str risk (py "High") then RED else YELLOW in
      print (RiskLine color_risk risk) ;;
      summary <- lift (py_get analysis (py "summary") VNone) ;;
      print (SummaryLine summary) ;;
      creds <- lift (py_get analysis (py "credentials") (VList [])) ;;
      if truthy creds then
        n <- lift (py_len creds) ;;
        print (CredentialsHeader n) ;;
        cs <- lift (py_iter creds) ;;
        for_each print_credential cs
      else ret tt
    else log MsgNoAnalysis LWarn.

(** [main()], once the command line gave [target]. *)
Definition main (target : pystr) : M unit :=
  intelx <- IntelXService_init ;;
  ai <- AIAnalyzer_init ;;
  sid <- search intelx target ;;
  if negb (truthy sid) then
    log MsgNoResult LError                   (* return *)
  else
    records <- get_results intelx sid ;;
    n <- lift (py_len records) ;;
    log (MsgFound n) LSuccess ;;
    top <- lift (py_slice 5 records) ;;
    items <- lift (py_iter top) ;;
    for_each (main_loop_body intelx ai) (enumerate items).

(** The script from its first line: the language-model client is built
    when the module is loaded, then the banner and [main]. *)
Definition script (target : pystr) : M unit :=
  lift (OpenAI_client w (OPENAI_API_KEY w)) ;;
  print Banner ;;
  main target.

End Pipeline.

(** ** Sample runs *)

Module Examples.

(** A JSON string literal. *)
Definition quoted (s : string) : pystr := c_quote :: py s ++ [c_quote].

(** A response whose [json()] decodes its body. *)
Definition reply (status : Z) (body : pystr) : response :=
  {| status_code := status; text := body; json := json_loads body |}.

Definition Timeout : exc := ExternalError 1.

(** A world whose services answer each kind of request the same way
    whatever happened before; the preview depends on the document id.
    The client of the language model refuses an absent key. *)
Definition scripted (intelx_key openai_key : option pystr)
  (search_r listing_r : outcome response)
  (preview_r : value -> outcome response) (view_r : outcome response)
  (chat_r : outcome completion) : world :=
  {| INTELX_API_KEY := intelx_key;
     OPENAI_API_KEY := openai_key;
     OpenAI_client := fun k =>
       match k with
       | Some _ => Returns tt
       | None => Throws (ExternalError 0)
       end;
     http := fun _ r =>
       match r with
       | PostSearch _ _ => search_r
       | GetSearchResult _ _ => listing_r
       | GetFilePreview _ did => preview_r did
       | GetFileView _ _ _ _ => view_r
       end;
     chat := fun _ _ => chat_r |}.

Definition record (name did storageid : string) : dict :=
  [(py "name", VStr (py name)); (py "date", VStr (py "2024-01-01"));
   (py "did", VStr (py did)); (py "storageid", VStr (py storageid));
   (py "bucket", VStr (py "leaks.public.general"))].

Definition record1 : dict := record "dump-a.txt" "d1" "s1".
Definition record2 : dict := record "dump-b.txt" "d2" "s2".

Definition service : IntelXService := {| x_key := VStr (py "key") |}.

(** [{"id": "abc123"}] *)
Definition search_ok : outcome response :=
  Returns (reply 200 (py "{" ++ quoted "id" ++ py ": " ++ quoted "abc123"
                      ++ py "}")).

Definition listing_of (records : list value) : outcome response :=
  Returns {| status_code := 200; text := [];
             json := Returns (VDict [(py "records", VList records)]) |}.

Definition long_preview : pystr :=
  py "alice@example.com:hunter2 bob@example.com:letmein!".

(** The preview of [d1] has 50 characters, any other has 5. *)
Definition preview_by_did (did : value) : outcome response :=
  if eq_str did (py "d1") then Returns (reply 200 long_preview)
  else Returns (reply 200 (py "short")).

(** [{"risk_level": "High", "credentials": []}] *)
Definition finding_text : pystr :=
  py "{" ++ quoted "risk_level" ++ py ": " ++ quoted "High" ++ py ", "
  ++ quoted "credentials" ++ py ": []}".

Definition finding : value :=
  VDict [(py "risk_level", VStr (py "High")); (py "credentials", VList [])].

(** The model wraps the object in prose. *)
Definition chat_prose : outcome completion :=
  Returns [Some (py "Here is the analysis: " ++ finding_text
                 ++ py " Let me know if you need more.")].

(** The model answers with two objects. *)
Definition chat_two_objects : outcome completion :=
  Returns [Some (py "First " ++ finding_text ++ py " then "
                 ++ finding_text)].

(** [{"credentials": ["alice@example.com:hunter2"]}]: the credentials
    come as strings, not as objects. *)
Definition chat_flat_credentials : outcome completion :=
  Returns [Some (py "{" ++ quoted "credentials" ++ py ": ["
                 ++ quoted "alice@example.com:hunter2" ++ py "]}")].

Definition keys_set (chat_r : outcome completion) : world :=
  scripted (Some (py "key")) (Some (py "sk-1")) search_ok
    (listing_of [VDict record1; VDict record2]) preview_by_did
    (Returns (reply 200 (py "full text of the document"))) chat_r.

(** The example of the specification: two records, with previews of 50
    and 5 characters. *)
Definition w_demo : world := keys_set chat_prose.

Definition w_two_objects : world := keys_set chat_two_objects.

Definition w_flat_credentials : world := keys_set chat_flat_credentials.

(** The preview endpoint answers 404 with a body of 13 characters. *)
Definition w_preview_404 : world :=
  scripted (Some (py "key")) (Some (py "sk-1")) search_ok
    (listing_of [VDict record1]) (fun _ => Returns (reply 404 (py "404 Not Found")))
    (Returns (reply 200 (py "full text of the document"))) chat_prose.

(** The preview request times out. *)
Definition w_preview_timeout : world :=
  scripted (Some (py "key")) (Some (py "sk-1")) search_ok
    (listing_of [VDict record1]) (fun _ => Throws Timeout)
    (Returns (reply 200 (py "full text of the document"))) chat_prose.

(** The preview is too short and the view endpoint answers 200 with an
    empty body. *)
Definition w_empty_view : world :=
  scripted (Some (py "key")) (Some (py "sk-1")) search_ok
    (listing_of [VDict record2; VDict record1]) preview_by_did
    (Returns (reply 200 [])) chat_prose.

(** The search endpoint answers 500. *)
Definition w_search_500 : world :=
  scripted (Some (py "key")) (Some (py "sk-1"))
    (Returns (reply 500 (py "Internal Server Error")))
    (listing_of [VDict record1; VDict record2]) preview_by_did
    (Returns (reply 200 (py "full text of the document"))) chat_prose.

(** [INTELX_KEY] is not set. *)
Definition w_no_intelx_key : world :=
  scripted None (Some (py "sk-1")) search_ok
    (listing_of [VDict record1; VDict record2]) preview_by_did
    (Returns (reply 200 (py "full text of the document"))) chat_prose.

(** [OPENAI_API_KEY] is set to the empty string. *)
Definition w_empty_openai_key : world :=
  scripted (Some (py "key")) (Some []) search_ok
    (listing_of [VDict record1; VDict record2]) preview_by_did
    (Returns (reply 200 (py "full text of the document"))) chat_prose.

(** [OPENAI_API_KEY] is not set. *)
Definition w_no_openai_key : world :=
  scripted (Some (py "key")) None search_ok
    (listing_of [VDict record1; VDict record2]) preview_by_did
    (Returns (reply 200 (py "full text of the document"))) chat_prose.

(** The search endpoint answers 200 with an object that has no [id]. *)
Definition w_search_no_id : world :=
  scripted (Some (py "key")) (Some (py "sk-1")) (Returns (reply 200 (py "{}")))
    (listing_of [VDict record1; VDict record2]) preview_by_did
    (Returns (reply 200 (py "full text of the document"))) chat_prose.

(** The listing request times out. *)
Definition w_listing_timeout : world :=
  scripted (Some (py "key")) (Some (py "sk-1")) search_ok (Throws Timeout)
    preview_by_did (Returns (reply 200 (py "full text of the document")))
    chat_prose.

(** The listing answers 200 with [{"records": null}]. *)
Definition w_null_records : world :=
  scripted (Some (py "key")) (Some (py "sk-1")) search_ok
    (Returns (reply 200 (py "{" ++ quoted "records" ++ py ": null}")))
    preview_by_did (Returns (reply 200 (py "full text of the document")))
    chat_prose.

(** The listing answers 200 with six records. *)
Definition w_six_records : world :=
  scripted (Some (py "key")) (Some (py "sk-1")) search_ok
    (listing_of [VDict record1; VDict record2; VDict record1; VDict record2;
                 VDict record1; VDict record2])
    preview_by_did (Returns (reply 200 (py "full text of the document")))
    chat_prose.

End Examples.

(** * Vocabulary of the properties *)

(** The acceptance condition of the preview body. *)
Definition accepted (res : response) : bool :=
  ((status_code res =? 200)%Z && (10 <? List.length (text res)))%bool.

Definition preview_request (self : IntelXService) (d : dict) : request :=
  GetFilePreview self (dict_get d (py "did") VNone).

Definition view_request (w : world) (self : IntelXService) (d : dict) : request :=
  GetFileView self (dict_get d (py "storageid") VNone)
    (dict_get d (py "bucket") VNone) (env_value (INTELX_API_KEY w)).

(** The answer of the preview endpoint to [get_preview] called after [h]. *)
Definition preview_answer (w : world) (self : IntelXService) (d : dict)
  (h : trace) : outcome response :=
  http w (h ++ [EvHttp (preview_request self d)]) (preview_request self d).

(** The answer of the view endpoint, when it is asked after the preview. *)
Definition view_answer (w : world) (self : IntelXService) (d : dict)
  (h : trace) : outcome response :=
  http w (h ++ [EvHttp (preview_request self d); EvHttp (view_request w self d)])
    (view_request w self d).

(** The answer of the completion endpoint to [analyze_dump] called after
    [h] on [content]. *)
Definition chat_answer (w : world) (content : pystr) (h : trace)
  : outcome completion :=
  chat w (h ++ [EvChat (firstn snippet_chars content)]) (firstn snippet_chars content).

(** The brace-delimited substring found in the response, if any: a
    response without a choice or without text has none. *)
Definition found (c : completion) : option pystr :=
  match c with
  | Some raw :: _ => re_search_braces raw
  | _ => None
  end.

Definition is_view_request (e : event) : bool :=
  match e with
  | EvHttp (GetFileView _ _ _ _) => true
  | _ => false
  end.

(** Whether a run of [get_preview] asked the view endpoint. *)
Definition attempts_view (events : trace) : bool :=
  existsb is_view_request events.

Definition search_request_events (self : IntelXService) (term : pystr) : trace :=
  [EvLog (MsgSearching term) LInfo; EvHttp (PostSearch self term)].

(** The answer of the search endpoint to [search] called after [h]. *)
Definition search_answer (w : world) (self : IntelXService) (term : pystr)
  (h : trace) : outcome response :=
  http w (h ++ search_request_events self term) (PostSearch self term).

(** The answer of the listing endpoint to [get_results] called after [h]. *)
Definition listing_answer (w : world) (self : IntelXService)
  (search_id : value) (h : trace) : outcome response :=
  http w (h ++ [EvHttp (GetSearchResult self search_id)])
    (GetSearchResult self search_id).

(** The object a call answered: the decoded body of a 200 response, when it
    is an object. *)
Definition answered_object (o : outcome response) : option dict :=
  match o with
  | Returns res =>
      if (status_code res =? 200)%Z then
        match json res with
        | Returns (VDict d) => Some d
        | _ => None
        end
      else None
  | Throws _ => None
  end.

(** The error [search] logs for an answer that is not an object. *)
Definition search_error (o : outcome response) : message :=
  match o with
  | Throws e => MsgSearchException e
  | Returns res =>
      if (status_code res =? 200)%Z then
        match json res with
        | Throws e => MsgSearchException e
        | Returns _ => MsgSearchException AttributeError
        end
      else MsgSearchStatus (status_code res)
  end.

(** A call fails when it raises, when its status is not 200, or (for the
    calls that decode the body) when the body does not decode to an
    object. *)
Definition call_failed (o : outcome response) : Prop :=
  answered_object o = None.

(** The value [analyze_dump] returns, as a function of the answer of the
    completion endpoint. *)
Definition analysis_of (self : AIAnalyzer) (answer : outcome completion)
  : value :=
  if active self then
    match answer with
    | Throws _ => VNone
    | Returns c =>
        match found c with
        | None => VNone
        | Some g =>
            match json_loads g with
            | Returns v => v
            | Throws _ => VNone
            end
        end
    end
  else VNone.

Definition enabled : AIAnalyzer := {| active := true |}.

(** [obeys R P m]: whatever the history, [m] raises only exceptions in [R]
    and adds only events in [P]. *)
Definition obeys (A : Type) (R : exn -> Prop) (P : event -> Prop) (m : M A)
  : Prop :=
  forall h, (forall x, fst (m h) = Raise x -> R x) /\ Forall P (snd (m h)).

Definition is_exception (x : exn) : Prop := exists e, x = Exception e.

Definition is_request (e : event) : Prop :=
  match e with
  | EvHttp _ => True
  | _ => False
  end.

(** The service and the analyzer the two constructors build. *)
Definition configured_service (w : world) : IntelXService :=
  {| x_key := env_value (INTELX_API_KEY w) |}.

Definition configured_analyzer (w : world) : AIAnalyzer :=
  {| active := truthy (env_value (OPENAI_API_KEY w)) |}.

Definition analyzer_events (w : world) : trace :=
  if truthy (env_value (OPENAI_API_KEY w)) then []
  else [EvLog MsgOpenAIKeyMissing LWarn].

(** The history at which [main] calls [search]. *)
Definition search_history (w : world) (h : trace) : trace :=
  h ++ analyzer_events w.

(** The search call raises or answers with a status other than 200. *)
Definition throws_or_not_200 (o : outcome response) : Prop :=
  match o with
  | Throws _ => True
  | Returns res => status_code res <> 200%Z
  end.

(** The events about the listing or about a record: the listing request,
    the count of records, everything printed or asked for one record. *)
Definition about_records (e : event) : bool :=
  match e with
  | EvHttp (PostSearch _ _) => false
  | EvHttp _ => true
  | EvChat _ => true
  | EvPrint Banner => false
  | EvPrint _ => true
  | EvLog (MsgFound _) _ => true
  | EvLog (MsgAnalysingFile _ _ _) _ => true
  | EvLog MsgInaccessible _ => true
  | EvLog MsgSendingToAI _ => true
  | EvLog MsgNoAnalysis _ => true
  | EvLog (MsgAIError _) _ => true
  | EvLog _ _ => false
  end.

Definition Unknown : value := VStr (py "Unknown").

(** What the loop prints before it fetches the content of a record. *)
Definition record_header (idx : nat) (d : dict) : trace :=
  [EvPrint Separator;
   EvLog (MsgAnalysingFile (idx + 1) (dict_get d (py "name") Unknown)
            (dict_get d (py "date") Unknown)) LInfo].

(** The outcome of [get_preview] for a record of the loop entered after
    [h]. *)
Definition fetched (w : world) (intelx : IntelXService) (idx : nat) (d : dict)
  (h : trace) : result value * trace :=
  get_preview w intelx (VDict d) (h ++ record_header idx d).

(** The events that show a content or hand it to the summarizer: the
    preview snippet, the notice that precedes every call of [analyze_dump],
    and the completion request. *)
Definition shows_or_analyses (e : event) : bool :=
  match e with
  | EvPrint (PreviewRaw _) => true
  | EvLog MsgSendingToAI _ => true
  | EvChat _ => true
  | _ => false
  end.

Definition not_chat (e : event) : Prop :=
  match e with
  | EvChat _ => False
  | _ => True
  end.

(** The records a run started on: the index and the name of each header. *)
Definition started (events : trace) : list (nat * value) :=
  flat_map (fun e =>
              match e with
              | EvLog (MsgAnalysingFile idx name _) _ => [(idx, name)]
              | _ => []
              end) events.

Definition not_header (e : event) : Prop :=
  match e with
  | EvLog (MsgAnalysingFile _ _ _) _ => False
  | _ => True
  end.

(** The header of a record, as [started] reports it. *)
Definition header_of (entry : nat * dict) : nat * value :=
  (fst entry + 1, dict_get (snd entry) (py "name") Unknown).

(** The entries of [enumerate] from a given first index. *)
Definition entries (A : Type) (k : nat) (l : list A) : list (nat * A) :=
  combine (seq k (List.length l)) l.

(** Both attempts of [get_preview] failed: the preview request raised, or
    its answer was not accepted and the view request raised or answered
    with a status other than 200. *)
Definition preview_failed (w : world) (self : IntelXService) (d : dict)
  (h : trace) : Prop :=
  match preview_answer w self d h with
  | Throws _ => True
  | Returns res =>
      accepted res = false /\ throws_or_not_200 (view_answer w self d h)
  end.

(** The analysis failed: the completion call raised, nothing between
    braces was found in the response, or what was found does not decode. *)
Definition analysis_failed (answer : outcome completion) : Prop :=
  match answer with
  | Throws _ => True
  | Returns c =>
      match found c with
      | None => True
      | Some g => exists e, json_loads g = Throws e
      end
  end.

(** The session identifier [search] returns for an answer of its call. *)
Definition session_id (o : outcome response) : value :=
  match answered_object o with
  | Some d => dict_get d (py "id") VNone
  | None => VNone
  end.

(** The records [get_results] returns for an answer of its call. *)
Definition listed (o : outcome response) : value :=
  match answered_object o with
  | Some d => dict_get d (py "records") (VList [])
  | None => VList []
  end.

(** The part of [main] that follows the listing: the count of records and
    the loop over the first five. *)
Definition process_records (w : world) (intelx : IntelXService)
  (ai : AIAnalyzer) (records : value) : M unit :=
  n <- lift (py_len records) ;;
  log (MsgFound n) LSuccess ;;
  top <- lift (py_slice 5 records) ;;
  items <- lift (py_iter top) ;;
  for_each (main_loop_body w intelx ai) (enumerate items).

(** The requests of a trace: those sent to the search service and those
    sent to the language model. *)
Definition http_requests (events : trace) : nat :=
  List.length (filter (fun e => match e with EvHttp _ => true | _ => false end)
                 events).

Definition chat_requests (events : trace) : nat :=
  List.length (filter (fun e => match e with EvChat _ => true | _ => false end)
                 events).

(** [sends n k m]: whatever the history, [m] sends at most [n] requests to
    the search service and at most [k] to the language model. *)
Definition sends (A : Type) (n k : nat) (m : M A) : Prop :=
  forall h, http_requests (snd (m h)) <= n /\ chat_requests (snd (m h)) <= k.

(** An event that is no part of a finding: neither a completion request
    nor a risk, summary or credential line. *)
Definition no_finding (e : event) : Prop :=
  match e with
  | EvChat _ => False
  | EvPrint (RiskLine _ _) => False
  | EvPrint (SummaryLine _) => False
  | EvPrint (CredentialsHeader _) => False
  | EvPrint (CredentialLine _ _) => False
  | _ => True
  end.

Definition is_dict (v : value) : bool :=
  match v with
  | VDict _ => true
  | _ => false
  end.

(** Credentials the loop can print: nothing (a false value), or a list of
    objects. *)
Definition printable_credentials (creds : value) : bool :=
  negb (truthy creds)
  || match creds with
     | VList l => forallb is_dict l
     | _ => false
     end.

(** A finding whose [credentials] field, when present, can be printed. *)
Definition printable_finding (v : value) : bool :=
  match v with
  | VDict o => printable_credentials (dict_get o (py "credentials") (VList []))
  | _ => true
  end.

(** [m] raises nothing, whatever the history. *)
Definition never_raises (A : Type) (m : M A) : Prop :=
  obeys (fun _ => False) (fun _ => True) m.

(** Every finding the world can lead to is printable. *)
Definition printable_findings (w : world) (ai : AIAnalyzer) : Prop :=
  forall content h,
    printable_finding (analysis_of ai (chat_answer w content h)) = true.

(** The key a request carries in its headers. *)
Definition request_key (r : request) : value :=
  match r with
  | PostSearch self _ => x_key self
  | GetSearchResult self _ => x_key self
  | GetFilePreview self _ => x_key self
  | GetFileView self _ _ _ => x_key self
  end.

(** A request made on behalf of the configured key: the key is in the
    headers and, for the view endpoint, in the parameter [k] as well. *)
Definition carries_key (w : world) (e : event) : Prop :=
  match e with
  | EvHttp r =>
      request_key r = env_value (INTELX_API_KEY w) /\
      match r with
      | GetFileView _ _ _ k => k = env_value (INTELX_API_KEY w)
      | _ => True
      end
  | _ => True
  end.

(** A preview snippet of at most 100 characters, when the event prints
    one. *)
Definition capped_snippet (e : event) : Prop :=
  match e with
  | EvPrint (PreviewRaw v) => exists s, v = VStr s /\ List.length s <= 100
  | _ => True
  end.

Definition not_listing (e : event) : Prop :=
  match e with
  | EvHttp (GetSearchResult _ _) => False
  | _ => True
  end.

(** An event of at most the snippet length, when it is a completion request. *)
Definition short_snippet (e : event) : Prop :=
  match e with
  | EvChat s => List.length s <= snippet_chars
  | _ => True
  end.

(** * Properties *)

(** ** The pattern search *)

Lemma upto_last_rbrace_none (s : pystr) :
  upto_last_rbrace s = None <-> ~ In c_rbrace s.
Proof.
  induction s as [|c t IH]; simpl.
  - tauto.
  - destruct (upto_last_rbrace t) as [p|].
    + split; [discriminate|]. intros H. exfalso.
      assert (Some p = None) as E by (apply IH; tauto). discriminate.
    + destruct (N.eqb_spec c c_rbrace) as [->|Hc].
      * split; [discriminate|]. intros H. exfalso; apply H; now left.
      * split; [|reflexivity]. intros _ [E|Hin]; [congruence|].
        now apply (proj1 IH).
  Qed.

(** The greedy body stops at the last closing brace. *)
Lemma upto_last_rbrace_last (body post : pystr) :
  ~ In c_rbrace post ->
  upto_last_rbrace (body ++ c_rbrace :: post) = Some (body ++ [c_rbrace]).
Proof.
  intros Hpost. induction body as [|c t IH]; simpl.
  - apply upto_last_rbrace_none in Hpost. now rewrite Hpost.
  - now rewrite IH.
Qed.

Lemma upto_last_rbrace_some (s p : pystr) :
  upto_last_rbrace s = Some p ->
  exists body post,
    s = body ++ c_rbrace :: post /\ p = body ++ [c_rbrace] /\ ~ In c_rbrace post.
Proof.
  revert p. induction s as [|c t IH]; simpl; intros p H; [discriminate|].
  destruct (upto_last_rbrace t) as [p'|] eqn:E.
  - injection H as <-. destruct (IH p' eq_refl) as (body & post & -> & -> & Hn).
    now exists (c :: body), post.
  - destruct (N.eqb_spec c c_rbrace) as [->|Hc]; [|discriminate].
    injection H as <-. exists [], t. repeat split.
    now apply upto_last_rbrace_none.
Qed.

Lemma re_search_braces_skip (pre s : pystr) :
  ~ In c_lbrace pre -> re_search_braces (pre ++ s) = re_search_braces s.
Proof.
  induction pre as [|c t IH]; simpl; intros H; [reflexivity|].
  destruct (N.eqb_spec c c_lbrace) as [->|Hc].
  - exfalso; apply H; now left.
  - apply IH. tauto.
Qed.

(** The match runs from the first opening brace to the last closing one. *)
Lemma re_search_braces_first_to_last (pre body post : pystr) :
  ~ In c_lbrace pre -> ~ In c_rbrace post ->
  re_search_braces (pre ++ c_lbrace :: body ++ c_rbrace :: post)
  = Some (c_lbrace :: body ++ [c_rbrace]).
Proof.
  intros Hpre Hpost. rewrite re_search_braces_skip by assumption.
  simpl. now rewrite upto_last_rbrace_last.
Qed.

Lemma re_search_braces_some (s g : pystr) :
  re_search_braces s = Some g ->
  exists pre body post,
    s = pre ++ c_lbrace :: body ++ c_rbrace :: post /\
    g = c_lbrace :: body ++ [c_rbrace] /\
    ~ In c_rbrace post.
Proof.
  revert g. induction s as [|c t IH]; simpl; intros g H; [discriminate|].
  destruct (N.eqb_spec c c_lbrace) as [->|Hc].
  - destruct (upto_last_rbrace t) as [p|] eqn:E.
    + injection H as <-.
      destruct (upto_last_rbrace_some _ E) as (body & post & -> & -> & Hn).
      now exists [], body, post.
    + destruct (IH g H) as (pre & body & post & -> & -> & Hn).
      now exists (c_lbrace :: pre), body, post.
  - destruct (IH g H) as (pre & body & post & -> & -> & Hn).
    now exists (c :: pre), body, post.
Qed.

(** X2: the search fails exactly on the texts without an opening brace that
    is followed, anywhere later, by a closing brace. *)
Lemma re_search_braces_none (s : pystr) :
  re_search_braces s = None <->
  ~ exists a b c, s = a ++ c_lbrace :: b ++ c_rbrace :: c.
Proof.
  split.
  - induction s as [|x t IH]; simpl; intros H (a & b & c & E).
    + destruct a; discriminate.
    + destruct a as [|y a]; simpl in E; injection E as -> ->.
      * rewrite N.eqb_refl in H.
        destruct (upto_last_rbrace (b ++ c_rbrace :: c)) eqn:U; [discriminate|].
        apply upto_last_rbrace_none in U. apply U, in_or_app. right. now left.
      * apply IH; [|now exists a, b, c].
        destruct (y =? c_lbrace)%N; [|assumption].
        now destruct (upto_last_rbrace (a ++ c_lbrace :: b ++ c_rbrace :: c)).
  - intros H. destruct (re_search_braces s) as [g|] eqn:E; [|reflexivity].
    exfalso. apply H.
    destruct (re_search_braces_some _ E) as (pre & body & post & -> & _ & _).
    now exists pre, body, post.
Qed.

(** ** The decoder on a text that starts with an opening brace *)

Lemma scan_once_object (fuel : nat) (s : pystr) (v : value) (r : pystr) :
  scan_once fuel (c_lbrace :: s) = Some (v, r) -> exists d, v = VDict d.
Proof.
  destruct fuel as [|f]; simpl; [discriminate|].
  destruct (skip_ws s) as [|c' t']; [discriminate|].
  destruct (c' =? c_rbrace)%N.
  - intros [= <- _]. now exists [].
  - destruct (c' =? c_quote)%N; [|discriminate].
    destruct (object_pairs f t' []) as [[d r']|]; [|discriminate].
    intros [= <- _]. now exists d.
Qed.

(** What [json.loads] returns for such a text is a [dict]. *)
Lemma json_loads_object (s : pystr) (v : value) :
  json_loads (c_lbrace :: s) = Returns v -> exists d, v = VDict d.
Proof.
  unfold json_loads.
  change (skip_ws (c_lbrace :: s)) with (c_lbrace :: s).
  cbv beta iota zeta.
  destruct (scan_once (List.length (c_lbrace :: s)) (c_lbrace :: s))
    as [[v' r]|] eqn:E.
  - apply scan_once_object in E. destruct (skip_ws r); [|discriminate].
    intros [= <-]. exact E.
  - exact (fun H => ltac:(discriminate H)).
Qed.

(** ** The fuel of the decoder *)

Lemma skip_ws_length (s : pystr) : List.length (skip_ws s) <= List.length s.
Proof.
  induction s as [|c t IH]; simpl; [lia|].
  destruct (is_ws c); simpl; lia.
Qed.

Lemma hex4_length (s r : pystr) (u : N) :
  hex4 s = Some (u, r) -> List.length s = 4 + List.length r.
Proof.
  unfold hex4. destruct s as [|a [|b [|c [|d t]]]]; try discriminate.
  destruct (hex_val a), (hex_val b), (hex_val c), (hex_val d);
    try discriminate.
  intros [= _ <-]. reflexivity.
Qed.

Lemma scanstring_length (f : nat) (s acc k r : pystr) :
  scanstring f s acc = Some (k, r) -> List.length r < List.length s.
Proof.
  revert s acc. induction f as [|f IH]; intros s acc H; [discriminate|].
  simpl in H. destruct s as [|c t]; [discriminate|].
  destruct (c =? c_quote)%N; [injection H as _ <-; simpl; lia|].
  destruct (c =? c_backslash)%N.
  - destruct t as [|e t']; [discriminate|].
    destruct (e =? 117)%N.
    + destruct (hex4 t') as [[u r0]|] eqn:Eh; [|discriminate].
      apply hex4_length in Eh.
      assert (forall a, scanstring f r0 a = Some (k, r) ->
                        List.length r < List.length (c :: e :: t')) as Hr0.
      { intros a Ha. apply IH in Ha. simpl. lia. }
      destruct (is_high_surrogate u); [|now apply Hr0 in H].
      destruct r0 as [|b [|e2 r']]; try (now apply Hr0 in H).
      destruct ((b =? c_backslash) && (e2 =? 117))%N%bool;
        [|now apply Hr0 in H].
      destruct (hex4 r') as [[u2 r2]|] eqn:Eh2; [|discriminate].
      apply hex4_length in Eh2.
      destruct (is_low_surrogate u2); [|now apply Hr0 in H].
      apply IH in H. simpl in *. lia.
    + destruct (unescape e); [|discriminate]. apply IH in H. simpl. lia.
  - destruct (c <? 32)%N; [discriminate|]. apply IH in H. simpl. lia.
Qed.

(** More fuel than the length of the text changes nothing. *)
Lemma scanstring_fuel (f : nat) (s acc : pystr) (x : pystr * pystr) :
  scanstring f s acc = Some x ->
  forall f', List.length s <= f' -> scanstring f' s acc = Some x.
Proof.
  revert s acc. induction f as [|f IH]; intros s acc H f' Hf';
    [discriminate|].
  destruct s as [|c t]; [discriminate|].
  destruct f' as [|f'']; [simpl in Hf'; lia|].
  simpl in H |- *. simpl in Hf'.
  destruct (c =? c_quote)%N; [exact H|].
  destruct (c =? c_backslash)%N.
  - destruct t as [|e t']; [discriminate|].
    destruct (e =? 117)%N.
    + destruct (hex4 t') as [[u r0]|] eqn:Eh; [|discriminate].
      apply hex4_length in Eh. simpl in Hf'.
      assert (forall a, scanstring f r0 a = Some x ->
                        scanstring f'' r0 a = Some x) as Hr0.
      { intros a Ha. apply (IH _ _ Ha). lia. }
      destruct (is_high_surrogate u); [|now apply Hr0].
      destruct r0 as [|b [|e2 r']]; try (now apply Hr0).
      destruct ((b =? c_backslash) && (e2 =? 117))%N%bool; [|now apply Hr0].
      destruct (hex4 r') as [[u2 r2]|] eqn:Eh2; [|discriminate].
      apply hex4_length in Eh2.
      destruct (is_low_surrogate u2); [|now apply Hr0].
      apply (IH _ _ H). simpl in *. lia.
    + destruct (unescape e); [|discriminate]. apply (IH _ _ H).
      simpl in Hf'. lia.
  - destruct (c <? 32)%N; [discriminate|]. apply (IH _ _ H). lia.
Qed.

Lemma strip_prefix_length (p s r : pystr) :
  strip_prefix p s = Some r -> List.length s = List.length p + List.length r.
Proof.
  revert s. induction p as [|a p IH]; intros s; simpl.
  - now intros [= ->].
  - destruct s as [|b s']; [discriminate|].
    destruct (a =? b)%N; [|discriminate]. intros H. apply IH in H.
    simpl. lia.
Qed.

Lemma take_digits_length (s : pystr) :
  List.length (snd (take_digits s)) + List.length (fst (take_digits s))
  = List.length s.
Proof.
  induction s as [|c t IH]; simpl; [reflexivity|].
  destruct (is_digit c); [|simpl; lia].
  destruct (take_digits t) as [ds r]. simpl in *. lia.
Qed.

Lemma match_int_part_length (s r : pystr) (ds : list N) :
  match_int_part s = Some (ds, r) -> List.length r < List.length s.
Proof.
  unfold match_int_part. destruct s as [|d t]; [discriminate|].
  destruct (d =? 48)%N; [intros [= _ <-]; simpl; lia|].
  destruct (is_digit d) eqn:Ed; [|discriminate].
  intros H. pose proof (take_digits_length t) as L.
  simpl in H. rewrite Ed in H.
  destruct (take_digits t) as [ds' r']. injection H as <- <-.
  simpl in *. lia.
Qed.

Lemma match_frac_length (s : pystr) :
  List.length (snd (match_frac s)) <= List.length s.
Proof.
  unfold match_frac. destruct s as [|c t]; [simpl; lia|].
  destruct (c =? c_dot)%N; [|simpl; lia].
  pose proof (take_digits_length t) as L.
  destruct (take_digits t) as [[|d fs] r]; simpl in *; lia.
Qed.

Lemma match_exp_length (s : pystr) :
  List.length (snd (match_exp s)) <= List.length s.
Proof.
  unfold match_exp. destruct s as [|c t]; [simpl; lia|].
  destruct ((c =? 101) || (c =? 69))%N%bool; [|simpl; lia].
  destruct t as [|g u].
  - simpl. lia.
  - destruct (g =? c_minus)%N.
    + pose proof (take_digits_length u) as L.
      destruct (take_digits u) as [[|d es] r]; simpl in *; lia.
    + destruct (g =? c_plus)%N.
      * pose proof (take_digits_length u) as L.
        destruct (take_digits u) as [[|d es] r]; simpl in *; lia.
      * pose proof (take_digits_length (g :: u)) as L.
        destruct (take_digits (g :: u)) as [[|d es] r]; simpl in *; lia.
Qed.

Lemma match_number_length (s r : pystr) (v : value) :
  match_number s = Some (v, r) -> List.length r < List.length s.
Proof.
  unfold match_number.
  assert (exists neg s1,
             match s with
             | [] => (false, s)
             | c :: t => if (c =? c_minus)%N then (true, t) else (false, s)
             end = (neg, s1) /\ List.length s1 <= List.length s)
    as (neg & s1 & -> & Hs1).
  { destruct s as [|c t]; [now exists false, []|].
    destruct (c =? c_minus)%N; eexists _, _; (split; [reflexivity|]);
      simpl; lia. }
  destruct (match_int_part s1) as [[ds r1]|] eqn:Ei; [|discriminate].
  apply match_int_part_length in Ei.
  pose proof (match_frac_length r1) as Lf.
  destruct (match_frac r1) as [fs r2].
  pose proof (match_exp_length r2) as Le.
  destruct (match_exp r2) as [ex r3]. simpl in *.
  destruct fs, ex; intros [= _ <-]; lia.
Qed.

Lemma scan_atom_length (s r : pystr) (v : value) :
  scan_atom s = Some (v, r) -> List.length r < List.length s.
Proof.
  unfold scan_atom. intros H.
  repeat match type of H with
         | context [strip_prefix ?p s] =>
             let E := fresh "E" in
             destruct (strip_prefix p s) eqn:E;
             [apply strip_prefix_length in E; injection H as _ <-;
              simpl in E; lia|]
         | context [match_number s] =>
             let E := fresh "E" in
             destruct (match_number s) as [[v' r']|] eqn:E;
             [apply match_number_length in E; injection H as _ <-; exact E|]
         end.
  discriminate.
Qed.

Lemma scan_once_S (f : nat) (s : pystr) :
  scan_once (S f) s =
  match s with
  | [] => None
  | c :: t =>
      if (c =? c_quote)%N then
        match scanstring (List.length t) t [] with
        | Some (k, r) => Some (VStr k, r)
        | None => None
        end
      else if (c =? c_lbrace)%N then
        match skip_ws t with
        | c' :: t' =>
            if (c' =? c_rbrace)%N then Some (VDict [], t')
            else if (c' =? c_quote)%N then
              match object_pairs f t' [] with
              | Some (d, r) => Some (VDict d, r)
              | None => None
              end
            else None
        | [] => None
        end
      else if (c =? c_lbracket)%N then
        match skip_ws t with
        | c' :: t' =>
            if (c' =? c_rbracket)%N then Some (VList [], t')
            else
              match array_items f (c' :: t') [] with
              | Some (l, r) => Some (VList l, r)
              | None => None
              end
        | [] => None
        end
      else scan_atom s
  end.
Proof. reflexivity. Qed.

Lemma object_pairs_S (f : nat) (s : pystr) (acc : dict) :
  object_pairs (S f) s acc =
  match scanstring (List.length s) s [] with
  | None => None
  | Some (key, r) =>
      match skip_ws r with
      | c :: r1 =>
          if (c =? c_colon)%N then
            match scan_once f (skip_ws r1) with
            | None => None
            | Some (v, r2) =>
                let acc' := dict_set key v acc in
                match skip_ws r2 with
                | c2 :: r3 =>
                    if (c2 =? c_rbrace)%N then Some (acc', r3)
                    else if (c2 =? c_comma)%N then
                      match skip_ws r3 with
                      | c3 :: r4 =>
                          if (c3 =? c_quote)%N
                          then object_pairs f r4 acc'
                          else None
                      | [] => None
                      end
                    else None
                | [] => None
                end
            end
          else None
      | [] => None
      end
  end.
Proof. reflexivity. Qed.

Lemma array_items_S (f : nat) (s : pystr) (acc : list value) :
  array_items (S f) s acc =
  match scan_once f s with
  | None => None
  | Some (v, r) =>
      match skip_ws r with
      | c :: r1 =>
          if (c =? c_rbracket)%N then Some (rev (v :: acc), r1)
          else if (c =? c_comma)%N
          then array_items f (skip_ws r1) (v :: acc)
          else None
      | [] => None
      end
  end.
Proof. reflexivity. Qed.

(** A successful scan consumes at least one character, and succeeds alike
    with any fuel that is at least the number of characters it consumes. *)
Lemma scan_fuel (f : nat) :
  (forall s a r, scan_once f s = Some (a, r) ->
     List.length r < List.length s /\
     forall f', List.length s - List.length r <= f' ->
                scan_once f' s = Some (a, r)) /\
  (forall s acc a r, object_pairs f s acc = Some (a, r) ->
     List.length r < List.length s /\
     forall f', List.length s - List.length r <= f' ->
                object_pairs f' s acc = Some (a, r)) /\
  (forall s acc a r, array_items f s acc = Some (a, r) ->
     List.length r < List.length s /\
     forall f', List.length s - List.length r <= f' ->
                array_items f' s acc = Some (a, r)).
Proof.
  induction f as [|f (IHs & IHo & IHa)]; [repeat split; discriminate|].
  split; [|split].
  - intros s a r H. rewrite scan_once_S in H.
    destruct s as [|c t]; [discriminate|].
    destruct (c =? c_quote)%N eqn:Eq.
    { destruct (scanstring (List.length t) t []) as [[k r']|] eqn:Es;
        [|discriminate].
      injection H as <- <-. apply scanstring_length in Es as L.
      split; [cbn [List.length]; lia|]. intros [|f'] Hf'; [cbn [List.length] in Hf'; lia|].
      now rewrite scan_once_S, Eq, Es. }
    destruct (c =? c_lbrace)%N eqn:Eb.
    { pose proof (skip_ws_length t) as Lw.
      destruct (skip_ws t) as [|c' t'] eqn:Ew; [discriminate|].
      cbn [List.length] in Lw.
      destruct (c' =? c_rbrace)%N eqn:Er.
      { injection H as <- <-. split; [cbn [List.length]; lia|].
        intros [|f'] Hf'; [cbn [List.length] in Hf'; lia|].
        now rewrite scan_once_S, Eq, Eb, Ew, Er. }
      destruct (c' =? c_quote)%N eqn:Eq'; [|discriminate].
      destruct (object_pairs f t' []) as [[d r']|] eqn:Eo; [|discriminate].
      injection H as <- <-. destruct (IHo _ _ _ _ Eo) as [L Hf].
      split; [cbn [List.length]; lia|]. intros [|f'] Hf'; [cbn [List.length] in Hf'; lia|].
      rewrite scan_once_S, Eq, Eb, Ew, Er, Eq'.
      rewrite Hf; [reflexivity|]. cbn [List.length] in Hf'. lia. }
    destruct (c =? c_lbracket)%N eqn:Ek.
    { pose proof (skip_ws_length t) as Lw.
      destruct (skip_ws t) as [|c' t'] eqn:Ew; [discriminate|].
      destruct (c' =? c_rbracket)%N eqn:Er.
      { injection H as <- <-. cbn [List.length] in Lw. split; [cbn [List.length]; lia|].
        intros [|f'] Hf'; [cbn [List.length] in Hf'; lia|].
        now rewrite scan_once_S, Eq, Eb, Ek, Ew, Er. }
      destruct (array_items f (c' :: t') []) as [[l r']|] eqn:Ea;
        [|discriminate].
      injection H as <- <-. destruct (IHa _ _ _ _ Ea) as [L Hf].
      split; [cbn [List.length] in *; lia|]. intros [|f'] Hf'; [cbn [List.length] in *; lia|].
      rewrite scan_once_S, Eq, Eb, Ek, Ew, Er.
      rewrite Hf; [reflexivity|]. cbn [List.length] in *. lia. }
    apply scan_atom_length in H as L. split; [exact L|].
    intros [|f'] Hf'; [lia|]. now rewrite scan_once_S, Eq, Eb, Ek.
  - intros s acc a r H. rewrite object_pairs_S in H.
    destruct (scanstring (List.length s) s []) as [[key r0]|] eqn:Es;
      [|discriminate].
    apply scanstring_length in Es as L0.
    pose proof (skip_ws_length r0) as Lw0.
    destruct (skip_ws r0) as [|c r1] eqn:Ew0; [discriminate|].
    destruct (c =? c_colon)%N eqn:Ec; [|discriminate].
    pose proof (skip_ws_length r1) as Lw1.
    destruct (scan_once f (skip_ws r1)) as [[v r2]|] eqn:Ev; [|discriminate].
    destruct (IHs _ _ _ Ev) as [L2 Hf2].
    pose proof (skip_ws_length r2) as Lw2.
    cbv zeta in H.
    destruct (skip_ws r2) as [|c2 r3] eqn:Ew2; [discriminate|].
    cbn [List.length] in Lw0, Lw2.
    destruct (c2 =? c_rbrace)%N eqn:Er.
    { injection H as <- <-. split; [lia|].
      intros [|f'] Hf'; [lia|].
      rewrite object_pairs_S, Es, Ew0, Ec.
      rewrite Hf2 by lia. cbv zeta. now rewrite Ew2, Er. }
    destruct (c2 =? c_comma)%N eqn:Em; [|discriminate].
    pose proof (skip_ws_length r3) as Lw3.
    destruct (skip_ws r3) as [|c3 r4] eqn:Ew3; [discriminate|].
    cbn [List.length] in Lw3.
    destruct (c3 =? c_quote)%N eqn:Eq3; [|discriminate].
    destruct (IHo _ _ _ _ H) as [L4 Hf4].
    split; [lia|]. intros [|f'] Hf'; [lia|].
    rewrite object_pairs_S, Es, Ew0, Ec.
    rewrite Hf2 by lia. cbv zeta. rewrite Ew2, Er, Em, Ew3, Eq3.
    apply Hf4. lia.
  - intros s acc a r H. rewrite array_items_S in H.
    destruct (scan_once f s) as [[v r0]|] eqn:Ev; [|discriminate].
    destruct (IHs _ _ _ Ev) as [L0 Hf0].
    pose proof (skip_ws_length r0) as Lw0.
    destruct (skip_ws r0) as [|c r1] eqn:Ew0; [discriminate|].
    cbn [List.length] in Lw0.
    destruct (c =? c_rbracket)%N eqn:Er.
    { injection H as <- <-. split; [lia|].
      intros [|f'] Hf'; [lia|].
      rewrite array_items_S. rewrite Hf0 by lia. now rewrite Ew0, Er. }
    destruct (c =? c_comma)%N eqn:Em; [|discriminate].
    pose proof (skip_ws_length r1) as Lw1.
    destruct (IHa _ _ _ _ H) as [L1 Hf1].
    split; [lia|]. intros [|f'] Hf'; [lia|].
    rewrite array_items_S. rewrite Hf0 by lia. rewrite Ew0, Er, Em.
    apply Hf1. lia.
Qed.

(** The fuel [json_loads] gives, the length of the text, is enough: the
    scan of a text gives the same result with any larger fuel. *)
Theorem scan_once_enough_fuel (s : pystr) (f : nat) :
  List.length s <= f -> scan_once f s = scan_once (List.length s) s.
Proof.
  intros Hf.
  destruct (scan_once f s) as [[a r]|] eqn:E.
  - destruct (proj1 (scan_fuel f) _ _ _ E) as [L H]. symmetry. apply H. lia.
  - destruct (scan_once (List.length s) s) as [[a r]|] eqn:E'; [|reflexivity].
    destruct (proj1 (scan_fuel _) _ _ _ E') as [L H].
    rewrite H in E by lia. discriminate.
Qed.

(** ** Running a computation symbolically *)

Ltac run_m :=
  cbv beta iota zeta
    delta [bind try_except requests chat_completions_create lift emit ret
           raise log print sys_exit fst snd].

Ltac norm_h := rewrite ?app_nil_r, <- ?app_assoc; cbn [app].

(** ** The preview fetcher *)

Lemma get_preview_eq (w : world) (self : IntelXService) (d : dict) (h : trace) :
  get_preview w self (VDict d) h =
  match preview_answer w self d h with
  | Throws _ => (Ok VNone, [EvHttp (preview_request self d)])
  | Returns res =>
      if accepted res
      then (Ok (VStr (text res)), [EvHttp (preview_request self d)])
      else
        (match view_answer w self d h with
         | Throws _ => Ok VNone
         | Returns res_view =>
             Ok (if (status_code res_view =? 200)%Z
                 then VStr (text res_view) else VNone)
         end,
         [EvHttp (preview_request self d); EvHttp (view_request w self d)])
  end.
Proof.
  unfold get_preview, preview_answer, view_answer, accepted.
  run_m. cbv delta [py_get] iota beta. run_m. norm_h.
  fold (preview_request self d). fold (view_request w self d).
  destruct (http w (h ++ [EvHttp (preview_request self d)]) _) as [res|e];
    [|reflexivity].
  destruct (_ && _)%bool; [reflexivity|].
  norm_h.
  destruct (http w _ (view_request w self d)) as [rv|e]; [|reflexivity].
  now destruct (status_code rv =? 200)%Z.
Qed.

(** ** The summarizer *)

Lemma analyze_dump_eq (w : world) (self : AIAnalyzer) (content : pystr)
  (h : trace) :
  analyze_dump w self (VStr content) h =
  if negb (active self) then (Ok VNone, [])
  else
    let asked := EvChat (firstn snippet_chars content) in
    match chat_answer w content h with
    | Throws e => (Ok VNone, [asked; EvLog (MsgAIError e) LError])
    | Returns [] => (Ok VNone, [asked; EvLog (MsgAIError IndexError) LError])
    | Returns (None :: _) =>
        (Ok VNone, [asked; EvLog (MsgAIError TypeError) LError])
    | Returns (Some raw :: _) =>
        match re_search_braces raw with
        | None => (Ok VNone, [asked])
        | Some group1 =>
            match json_loads group1 with
            | Returns v => (Ok v, [asked])
            | Throws e => (Ok VNone, [asked; EvLog (MsgAIError e) LError])
            end
        end
    end.
Proof.
  unfold analyze_dump, chat_answer.
  destruct (active self); [|reflexivity].
  cbv beta iota zeta delta [negb py_slice user_content].
  run_m. norm_h.
  destruct (chat w _ _) as [[|[raw|] rest]|e]; try reflexivity.
  cbv beta iota zeta delta [first_content re_search]. run_m.
  destruct (re_search_braces raw) as [g|]; [|reflexivity].
  run_m. now destruct (json_loads g).
Qed.

(** ** The fallback of the preview fetcher *)

Lemma accepted_spec (res : response) :
  accepted res = true <->
  status_code res = 200%Z /\ 10 < List.length (text res).
Proof.
  unfold accepted. rewrite andb_true_iff, Z.eqb_eq, Nat.ltb_lt. tauto.
Qed.

(** C2, as amended: when the preview endpoint answers, the view endpoint is
    asked exactly when the answer is not accepted, that is unless the status
    is 200 and the body is longer than 10 characters.  So a body of at most
    10 characters always leads to the fallback, and a longer body avoids it
    when the status is 200. *)
Theorem get_preview_fallback_iff_not_accepted
  (w : world) (self : IntelXService) (d : dict) (h : trace) (res : response) :
  preview_answer w self d h = Returns res ->
  (attempts_view (snd (get_preview w self (VDict d) h)) = true <->
   ~ (status_code res = 200%Z /\ 10 < List.length (text res))) /\
  (List.length (text res) <= 10 ->
   attempts_view (snd (get_preview w self (VDict d) h)) = true) /\
  (status_code res = 200%Z -> 10 < List.length (text res) ->
   attempts_view (snd (get_preview w self (VDict d) h)) = false).
Proof.
  intros Hres.
  assert (attempts_view (snd (get_preview w self (VDict d) h))
          = negb (accepted res)) as E.
  { rewrite get_preview_eq, Hres. now destruct (accepted res). }
  rewrite E. pose proof (accepted_spec res) as Hacc.
  destruct (accepted res); simpl; repeat split; intros; try tauto; lia.
Qed.

(** C3: when the preview request raises, [get_preview] gives up at once:
    it returns [None] and the view endpoint is never asked. *)
Theorem get_preview_exception_skips_fallback
  (w : world) (self : IntelXService) (d : dict) (h : trace) (e : exc) :
  preview_answer w self d h = Throws e ->
  get_preview w self (VDict d) h = (Ok VNone, [EvHttp (preview_request self d)])
  /\ attempts_view (snd (get_preview w self (VDict d) h)) = false.
Proof.
  intros He. rewrite get_preview_eq, He. split; reflexivity.
Qed.

(** C8: on fallback, that is when the preview endpoint answered and its
    answer was not accepted, a 200 answer of the view endpoint is returned
    whatever its body, the empty one included, and [None] is returned
    exactly when the view request raises or its status is not 200. *)
Theorem get_preview_on_fallback
  (w : world) (self : IntelXService) (d : dict) (h : trace) (res : response) :
  preview_answer w self d h = Returns res ->
  accepted res = false ->
  (forall res_view, view_answer w self d h = Returns res_view ->
     status_code res_view = 200%Z ->
     fst (get_preview w self (VDict d) h) = Ok (VStr (text res_view))) /\
  (fst (get_preview w self (VDict d) h) = Ok VNone <->
     (exists e, view_answer w self d h = Throws e) \/
     (exists res_view, view_answer w self d h = Returns res_view /\
                       status_code res_view <> 200%Z)).
Proof.
  intros Hres Hacc. rewrite get_preview_eq, Hres, Hacc. cbn [fst]. split.
  - intros rv -> H200. apply Z.eqb_eq in H200. now rewrite H200.
  - destruct (view_answer w self d h) as [rv|e].
    + destruct (Z.eqb_spec (status_code rv) 200) as [E|E]; split.
      * discriminate.
      * intros [[e He]|(rv' & [= <-] & Hrv)]; [discriminate|contradiction].
      * intros _. right. now exists rv.
      * reflexivity.
    + split; [|reflexivity]. intros _. left. now exists e.
Qed.

Import Examples.

Lemma get_preview_fallback_iff_not_accepted_witness :
  preview_answer w_demo service record2 [] = Returns (reply 200 (py "short")) /\
  attempts_view (snd (get_preview w_demo service (VDict record2) [])) = true.
Proof.
  split; [reflexivity|].
  apply (get_preview_fallback_iff_not_accepted w_demo service record2 []
           (res := reply 200 (py "short")) eq_refl).
  vm_compute. lia.
Defined.

(** A 404 answer of the preview endpoint with a body of 13 characters: the
    body is longer than 10 characters and the view endpoint is asked all the
    same. *)
Lemma preview_404_long_body_falls_back :
  preview_answer w_preview_404 service record1 []
    = Returns (reply 404 (py "404 Not Found")) /\
  10 < List.length (text (reply 404 (py "404 Not Found"))) /\
  attempts_view (snd (get_preview w_preview_404 service (VDict record1) []))
    = true.
Proof.
  split; [reflexivity|]. split; [vm_compute; lia|reflexivity].
Defined.

Lemma get_preview_exception_skips_fallback_witness :
  preview_answer w_preview_timeout service record1 [] = Throws Timeout /\
  get_preview w_preview_timeout service (VDict record1) []
    = (Ok VNone, [EvHttp (preview_request service record1)]).
Proof.
  split; [reflexivity|].
  apply (get_preview_exception_skips_fallback w_preview_timeout service
           record1 [] (e := Timeout) eq_refl).
Defined.

Lemma get_preview_on_fallback_witness :
  preview_answer w_empty_view service record2 []
    = Returns (reply 200 (py "short")) /\
  accepted (reply 200 (py "short")) = false /\
  fst (get_preview w_empty_view service (VDict record2) []) = Ok (VStr []).
Proof.
  split; [reflexivity|]. split; [reflexivity|].
  apply (proj1 (get_preview_on_fallback w_empty_view service record2 []
                  (res := reply 200 (py "short")) eq_refl eq_refl)
           (reply 200 [])); reflexivity.
Defined.

(** ** Search and listing *)

Lemma search_eq (w : world) (self : IntelXService) (term : pystr) (h : trace) :
  search w self term h =
  match answered_object (search_answer w self term h) with
  | Some d => (Ok (dict_get d (py "id") VNone), search_request_events self term)
  | None =>
      (Ok VNone,
       search_request_events self term
       ++ [EvLog (search_error (search_answer w self term h)) LError])
  end.
Proof.
  unfold search, search_answer, answered_object, search_error,
    search_request_events.
  run_m. norm_h.
  destruct (http w _ _) as [res|e]; [|reflexivity].
  destruct (status_code res =? 200)%Z; [|reflexivity].
  destruct (json res) as [[]|e]; reflexivity.
Qed.

Lemma get_results_eq (w : world) (self : IntelXService) (search_id : value)
  (h : trace) :
  get_results w self search_id h =
  (Ok match answered_object (listing_answer w self search_id h) with
      | Some d => dict_get d (py "records") (VList [])
      | None => VList []
      end,
   [EvHttp (GetSearchResult self search_id)]).
Proof.
  unfold get_results, listing_answer, answered_object.
  run_m. norm_h.
  destruct (http w _ _) as [res|e]; [|reflexivity].
  destruct (status_code res =? 200)%Z; [|reflexivity].
  destruct (json res) as [[]|e]; reflexivity.
Qed.

Lemma call_failed_throws (e : exc) : call_failed (Throws e).
Proof. reflexivity. Qed.

Lemma call_failed_status (res : response) :
  status_code res <> 200%Z -> call_failed (Returns res).
Proof.
  intros H. unfold call_failed, answered_object.
  now destruct (Z.eqb_spec (status_code res) 200).
Qed.

(** ** What the summarizer returns *)

Lemma found_starts_with_brace (c : completion) (g : pystr) :
  found c = Some g -> exists body, g = c_lbrace :: body ++ [c_rbrace].
Proof.
  destruct c as [|[raw|] rest]; try discriminate. simpl. intros H.
  destruct (re_search_braces_some _ H) as (pre & body & post & _ & -> & _).
  now exists body.
Qed.

Lemma analyze_dump_result (w : world) (self : AIAnalyzer) (content : pystr)
  (h : trace) :
  fst (analyze_dump w self (VStr content) h)
  = Ok (analysis_of self (chat_answer w content h)).
Proof.
  rewrite analyze_dump_eq. unfold analysis_of.
  destruct (active self); [|reflexivity]. cbn [negb]. cbv zeta.
  destruct (chat_answer w content h) as [[|[raw|] rest]|e]; try reflexivity.
  cbn [found]. destruct (re_search_braces raw) as [g|]; [|reflexivity].
  now destruct (json_loads g).
Qed.






(** ** Invariants of computations *)

Section Obeys.

Variables (R : exn -> Prop) (P : event -> Prop).

Lemma obeys_ret (A : Type) (a : A) : obeys R P (ret a).
Proof. intros h. split; [discriminate|constructor]. Qed.

Lemma obeys_emit (e : event) : P e -> obeys R P (emit e).
Proof. intros He h. split; [discriminate|]. repeat constructor. exact He. Qed.

Lemma obeys_raise (A : Type) (x : exn) : R x -> obeys R P (@raise A x).
Proof. intros Hx h. split; [|constructor]. now intros ? [= <-]. Qed.

Lemma obeys_lift (A : Type) (o : outcome A) :
  (forall e, R (Exception e)) -> obeys R P (lift o).
Proof.
  intros HR. destruct o; [apply obeys_ret|apply obeys_raise, HR].
Qed.

Lemma obeys_bind (A B : Type) (m : M A) (f : A -> M B) :
  obeys R P m -> (forall a, obeys R P (f a)) -> obeys R P (bind m f).
Proof.
  intros Hm Hf h. unfold bind. destruct (Hm h) as [Hr He].
  destruct (m h) as [[a|x] e1]; cbn [fst snd] in *.
  - destruct (Hf a (h ++ e1)) as [Hr' He'].
    destruct (f a (h ++ e1)) as [r e2]; cbn [fst snd] in *.
    split; [exact Hr'|]. apply Forall_app. now split.
  - split; [|exact He]. intros y [= <-]. now apply Hr.
Qed.

Lemma obeys_try_except (A : Type) (body : M A) (handler : exc -> M A) :
  obeys (fun x => R x \/ is_exception x) P body ->
  (forall e, obeys R P (handler e)) ->
  obeys R P (try_except body handler).
Proof.
  intros Hb Hh h. unfold try_except. destruct (Hb h) as [Hr He].
  destruct (body h) as [[a|[c|e]] e1]; cbn [fst snd] in *.
  - split; [discriminate|exact He].
  - split; [|exact He]. intros x [= <-].
    destruct (Hr _ eq_refl) as [H|[e H]]; [exact H|discriminate].
  - destruct (Hh e (h ++ e1)) as [Hr' He'].
    destruct (handler e (h ++ e1)) as [r e2]; cbn [fst snd] in *.
    split; [exact Hr'|]. apply Forall_app. now split.
Qed.

Lemma obeys_for_each (A : Type) (body : A -> M unit) (l : list A) :
  (forall a, obeys R P (body a)) -> obeys R P (for_each body l).
Proof.
  intros Hb. induction l as [|a l IH]; simpl.
  - apply obeys_ret.
  - apply obeys_bind; [apply Hb|intros _; exact IH].
Qed.

End Obeys.


Lemma obeys_requests (w : world) (R : exn -> Prop) (P : event -> Prop)
  (r : request) :
  (forall e, R (Exception e)) -> P (EvHttp r) -> obeys R P (requests w r).
Proof.
  intros HR HP. unfold requests. apply obeys_bind.
  - now apply obeys_emit.
  - intros _ h. destruct (http w h r); [apply obeys_ret|apply obeys_raise, HR].
Qed.

Lemma obeys_chat (w : world) (R : exn -> Prop) (P : event -> Prop)
  (user : pystr) :
  (forall e, R (Exception e)) -> P (EvChat user) ->
  obeys R P (chat_completions_create w user).
Proof.
  intros HR HP. unfold chat_completions_create. apply obeys_bind.
  - now apply obeys_emit.
  - intros _ h.
    destruct (chat w h user); [apply obeys_ret|apply obeys_raise, HR].
Qed.

(** Breaks a computation of the script into its steps. *)
Ltac obeys_steps :=
  repeat first
    [ apply obeys_ret
    | apply obeys_requests
    | apply obeys_chat
    | apply obeys_bind; [|intros ?]
    | apply obeys_try_except; [|intros ?]
    | apply obeys_for_each; intros ?
    | apply obeys_lift
    | apply obeys_emit
    | apply obeys_raise
    | match goal with
      | |- obeys _ _ (if ?b then _ else _) => destruct b
      | |- obeys _ _ (match ?o with Some _ => _ | None => _ end) => destruct o
      | |- obeys _ _ (let (_, _) := ?p in _) => destruct p
      end ].

(** [get_preview] adds nothing but requests, whatever it is called on. *)
Lemma get_preview_events (w : world) (self : IntelXService) (item : value) :
  obeys is_exception is_request (get_preview w self item).
Proof.
  unfold get_preview.
  obeys_steps; unfold is_exception; simpl; eauto.
Qed.

(** ** Steps of a run *)

Lemma bind_ok (A B : Type) (m : M A) (f : A -> M B) (h : trace) (a : A)
  (e1 : trace) :
  m h = (Ok a, e1) ->
  bind m f h = (fst (f a (h ++ e1)), e1 ++ snd (f a (h ++ e1))).
Proof.
  intros E. unfold bind. rewrite E. now destruct (f a (h ++ e1)).
Qed.

Lemma bind_raise (A B : Type) (m : M A) (f : A -> M B) (h : trace) (x : exn)
  (e1 : trace) :
  m h = (Raise x, e1) -> bind m f h = (Raise x, e1).
Proof. intros E. unfold bind. now rewrite E. Qed.

Lemma bind_events (A B : Type) (m : M A) (f : A -> M B) (h : trace) :
  exists rest, snd (bind m f h) = snd (m h) ++ rest.
Proof.
  unfold bind. destruct (m h) as [[a|x] e1]; cbn [snd].
  - destruct (f a (h ++ e1)) as [r e2]. now exists e2.
  - exists []. now rewrite app_nil_r.
Qed.

Lemma for_each_cons_ok (A : Type) (body : A -> M unit) (a : A) (l : list A)
  (h e1 : trace) :
  body a h = (Ok tt, e1) ->
  for_each body (a :: l) h
  = (fst (for_each body l (h ++ e1)), e1 ++ snd (for_each body l (h ++ e1))).
Proof.
  intros E. simpl.
  exact (@bind_ok _ _ _ (fun _ : unit => for_each body l) _ _ _ E).
Qed.

Lemma IntelXService_init_ok (w : world) (h : trace) :
  truthy (env_value (INTELX_API_KEY w)) = true ->
  IntelXService_init w h = (Ok (configured_service w), []).
Proof. intros E. unfold IntelXService_init. now rewrite E. Qed.

Lemma IntelXService_init_exit (w : world) (h : trace) :
  truthy (env_value (INTELX_API_KEY w)) = false ->
  IntelXService_init w h
  = (Raise (SystemExit 1), [EvLog MsgIntelxKeyMissing LError]).
Proof. intros E. unfold IntelXService_init. now rewrite E. Qed.

Lemma AIAnalyzer_init_eq (w : world) (h : trace) :
  AIAnalyzer_init w h = (Ok (configured_analyzer w), analyzer_events w).
Proof.
  unfold AIAnalyzer_init, configured_analyzer, analyzer_events.
  now destruct (truthy (env_value (OPENAI_API_KEY w))).
Qed.

(** ** A failed search *)

Lemma throws_or_not_200_failed (o : outcome response) :
  throws_or_not_200 o -> call_failed o.
Proof.
  destruct o as [res|e]; simpl; intros H;
    [now apply call_failed_status|apply call_failed_throws].
Qed.

Lemma search_error_not_about_records (o : outcome response) (t : log_type) :
  about_records (EvLog (search_error o) t) = false.
Proof.
  destruct o as [res|e]; simpl; [|reflexivity].
  destruct (status_code res =? 200)%Z; [|reflexivity].
  now destruct (json res).
Qed.

(** C5: when the search call raises or answers with a status other than
    200, [search] returns [None] and [main] returns after logging the two
    errors: it asks no listing and prints nothing about any record. *)
Theorem failed_search_stops_run (w : world) (target : pystr) (h : trace) :
  truthy (env_value (INTELX_API_KEY w)) = true ->
  throws_or_not_200
    (search_answer w (configured_service w) target (search_history w h)) ->
  fst (search w (configured_service w) target (search_history w h)) = Ok VNone
  /\ main w target h
     = (Ok tt,
        analyzer_events w
        ++ search_request_events (configured_service w) target
        ++ [EvLog (search_error
                     (search_answer w (configured_service w) target
                        (search_history w h))) LError;
            EvLog MsgNoResult LError])
  /\ existsb about_records (snd (main w target h)) = false.
Proof.
  intros Hkey Hfail. apply throws_or_not_200_failed in Hfail.
  unfold call_failed in Hfail.
  assert (search w (configured_service w) target (search_history w h)
          = (Ok VNone,
             search_request_events (configured_service w) target
             ++ [EvLog (search_error
                          (search_answer w (configured_service w) target
                             (search_history w h))) LError])) as Hs.
  { rewrite search_eq. now rewrite Hfail. }
  assert (main w target h
          = (Ok tt,
             analyzer_events w
             ++ search_request_events (configured_service w) target
             ++ [EvLog (search_error
                          (search_answer w (configured_service w) target
                             (search_history w h))) LError;
                 EvLog MsgNoResult LError])) as Hm.
  { unfold main.
    rewrite (@bind_ok _ _ _ _ _ _ _ (IntelXService_init_ok w h Hkey)). norm_h.
    rewrite (@bind_ok _ _ _ _ _ _ _ (AIAnalyzer_init_eq w h)).
    fold (search_history w h).
    rewrite (@bind_ok _ _ _ _ _ _ _ Hs). reflexivity. }
  split; [now rewrite Hs|]. split; [exact Hm|].
  rewrite Hm. cbn [snd]. unfold analyzer_events, search_request_events.
  rewrite !existsb_app. cbn [existsb].
  rewrite search_error_not_about_records.
  now destruct (truthy (env_value (OPENAI_API_KEY w))).
Qed.

Lemma failed_search_stops_run_witness :
  search_answer w_search_500 (configured_service w_search_500)
    (py "example.com") []
  = Returns (reply 500 (py "Internal Server Error")) /\
  main w_search_500 (py "example.com") []
  = (Ok tt,
     [EvLog (MsgSearching (py "example.com")) LInfo;
      EvHttp (PostSearch service (py "example.com"));
      EvLog (MsgSearchStatus 500) LError;
      EvLog MsgNoResult LError]).
Proof.
  split; [reflexivity|].
  apply (failed_search_stops_run w_search_500 (py "example.com") []).
  - reflexivity.
  - vm_compute. discriminate.
Defined.

(** ** One record of the loop *)

Lemma requests_do_not_show (events : trace) :
  Forall is_request events -> existsb shows_or_analyses events = false.
Proof.
  induction 1 as [|e l He _ IH]; [reflexivity|].
  simpl. rewrite IH. now destruct e as [| | |]; try contradiction.
Qed.

Lemma fetched_events (w : world) (intelx : IntelXService) (idx : nat)
  (d : dict) (h : trace) :
  Forall is_request (snd (fetched w intelx idx d h)).
Proof. apply (get_preview_events w intelx (VDict d)). Qed.

(** C9: a record whose content comes back as the empty string is handled
    like one whose content is [None]: after the header and the requests of
    [get_preview] the loop logs the warning and nothing else, so no snippet
    is printed and the summarizer is not called, and it goes on with the
    records that follow. *)
Theorem empty_preview_treated_as_none
  (w : world) (intelx : IntelXService) (ai : AIAnalyzer) (idx : nat)
  (d : dict) (h : trace) (content : value) :
  fst (fetched w intelx idx d h) = Ok content ->
  content = VStr [] \/ content = VNone ->
  let events :=
    record_header idx d ++ snd (fetched w intelx idx d h)
    ++ [EvLog MsgInaccessible LWarn] in
  main_loop_body w intelx ai (idx, VDict d) h = (Ok tt, events) /\
  existsb shows_or_analyses events = false /\
  forall others,
    for_each (main_loop_body w intelx ai) ((idx, VDict d) :: others) h
    = (fst (for_each (main_loop_body w intelx ai) others (h ++ events)),
       events ++ snd (for_each (main_loop_body w intelx ai) others
                        (h ++ events))).
Proof.
  intros Hc Hfalsy events.
  assert (main_loop_body w intelx ai (idx, VDict d) h = (Ok tt, events)) as E.
  { subst events. unfold fetched in *.
    unfold main_loop_body. cbv beta iota delta [py_get]. run_m. norm_h.
    fold Unknown. fold (record_header idx d).
    destruct (get_preview w intelx (VDict d) (h ++ record_header idx d))
      as [r ev].
    cbn [fst snd] in *. subst r.
    destruct Hfalsy as [-> | ->]; cbn [truthy negb]; norm_h; reflexivity. }
  split; [exact E|]. split.
  - subst events. rewrite !existsb_app.
    rewrite (requests_do_not_show (fetched_events w intelx idx d h)).
    reflexivity.
  - intros others. now apply for_each_cons_ok.
Qed.

Lemma empty_preview_treated_as_none_witness :
  fst (fetched w_empty_view service 0 record2 []) = Ok (VStr []) /\
  main_loop_body w_empty_view service enabled (0, VDict record2) []
  = (Ok tt,
     record_header 0 record2
     ++ [EvHttp (preview_request service record2);
         EvHttp (view_request w_empty_view service record2)]
     ++ [EvLog MsgInaccessible LWarn]).
Proof.
  split; [reflexivity|].
  apply (@empty_preview_treated_as_none w_empty_view service enabled 0 record2
           [] (VStr []) eq_refl (or_introl eq_refl)).
Defined.

(** ** The two credentials *)

Lemma obeys_bind_post (A B : Type) (R : exn -> Prop) (P : event -> Prop)
  (Q : A -> Prop) (m : M A) (f : A -> M B) :
  (forall h a e, m h = (Ok a, e) -> Q a) ->
  obeys R P m -> (forall a, Q a -> obeys R P (f a)) -> obeys R P (bind m f).
Proof.
  intros HQ Hm Hf h. unfold bind. destruct (Hm h) as [Hr He].
  destruct (m h) as [[a|x] e1] eqn:E; cbn [fst snd] in *.
  - destruct (Hf a (HQ _ _ _ E) (h ++ e1)) as [Hr' He'].
    destruct (f a (h ++ e1)) as [r e2]; cbn [fst snd] in *.
    split; [exact Hr'|]. apply Forall_app. now split.
  - split; [|exact He]. intros y [= <-]. now apply Hr.
Qed.

Lemma is_exception_intro (e : exc) : is_exception (Exception e).
Proof. now exists e. Qed.

Lemma is_exception_or (e : exc) :
  is_exception (Exception e) \/ is_exception (Exception e).
Proof. left. apply is_exception_intro. Qed.

#[local] Hint Resolve is_exception_intro is_exception_or : core.
#[local] Hint Extern 1 (not_chat _) => exact I : core.

Lemma analyze_dump_disabled (w : world) (self : AIAnalyzer) (content : value)
  (h : trace) :
  active self = false -> analyze_dump w self content h = (Ok VNone, []).
Proof. intros E. unfold analyze_dump. now rewrite E. Qed.

(** With a disabled analyzer no record leads to a completion request. *)
Lemma main_loop_body_without_analyzer (w : world) (intelx : IntelXService)
  (ai : AIAnalyzer) (entry : nat * value) :
  active ai = false ->
  obeys is_exception not_chat (main_loop_body w intelx ai entry).
Proof.
  intros Hoff. unfold main_loop_body. destruct entry as [idx item].
  obeys_steps; auto.
  intros h. rewrite analyze_dump_disabled by assumption.
  split; [discriminate|constructor].
Qed.

Lemma main_without_analyzer (w : world) (target : pystr) :
  truthy (env_value (INTELX_API_KEY w)) = true ->
  truthy (env_value (OPENAI_API_KEY w)) = false ->
  obeys is_exception not_chat (main w target).
Proof.
  intros Hkey Hoff. unfold main.
  apply obeys_bind_post with (Q := fun _ => True); [trivial| |intros intelx _].
  { intros h. rewrite IntelXService_init_ok by assumption.
    split; [discriminate|constructor]. }
  apply obeys_bind_post with (Q := fun ai => active ai = false).
  { intros h a e. rewrite AIAnalyzer_init_eq. intros [= <- _].
    exact Hoff. }
  { intros h. rewrite AIAnalyzer_init_eq. split; [discriminate|].
    unfold analyzer_events. rewrite Hoff. repeat constructor. }
  intros ai Hai. obeys_steps; auto.
  now apply main_loop_body_without_analyzer.
Qed.

Lemma search_events_start (w : world) (self : IntelXService) (term : pystr)
  (h : trace) :
  exists rest,
    snd (search w self term h) = search_request_events self term ++ rest.
Proof.
  rewrite search_eq. destruct (answered_object _); cbn [snd].
  - exists []. now rewrite app_nil_r.
  - eexists. reflexivity.
Qed.




(** ** The records the loop works through *)

#[local] Hint Extern 1 (not_header _) => exact I : core.

Lemma started_app (a b : trace) : started (a ++ b) = started a ++ started b.
Proof. apply flat_map_app. Qed.

Lemma started_none (events : trace) :
  Forall not_header events -> started events = [].
Proof.
  induction 1 as [|e l He _ IH]; [reflexivity|].
  unfold started in *. simpl. rewrite IH.
  destruct e as [[] | | |]; try reflexivity; contradiction.
Qed.

Lemma analyze_dump_no_header (w : world) (self : AIAnalyzer) (content : value) :
  obeys is_exception not_header (analyze_dump w self content).
Proof.
  unfold analyze_dump. destruct (active self); cbn [negb].
  - obeys_steps; auto.
  - apply obeys_ret.
Qed.

(** The body of the loop prints one header, that of its record. *)
Lemma main_loop_body_started (w : world) (intelx : IntelXService)
  (ai : AIAnalyzer) (idx : nat) (d : dict) (h : trace) :
  started (snd (main_loop_body w intelx ai (idx, VDict d) h))
  = [header_of (idx, d)].
Proof.
  unfold main_loop_body. cbv beta iota delta [py_get].
  rewrite (@bind_ok _ _ _ _ h (dict_get d (py "name") Unknown) [] eq_refl).
  rewrite (@bind_ok _ _ _ _ (h ++ []) (dict_get d (py "date") Unknown) []
             eq_refl).
  rewrite (@bind_ok _ _ _ _ ((h ++ []) ++ []) tt [EvPrint Separator] eq_refl).
  match goal with
  | |- context [bind (log ?m ?t) ?f ?hh] =>
      rewrite (@bind_ok _ _ _ f hh tt [EvLog m t] eq_refl)
  end.
  cbn [snd app]. unfold started at 1. cbn [flat_map app].
  match goal with
  | |- context [snd (bind ?m ?f ?hh)] =>
      assert (obeys is_exception not_header (bind m f)) as Hk;
      [|destruct (Hk hh) as [_ Hev]]
  end.
  { obeys_steps; auto. apply analyze_dump_no_header. }
  apply started_none in Hev. unfold started in Hev. rewrite Hev.
  reflexivity.
Qed.


(** The loop prints the headers of its records in order, up to the record
    at which an exception ends the run, if any. *)
Lemma for_each_started (w : world) (intelx : IntelXService) (ai : AIAnalyzer)
  (ds : list dict) (k : nat) (h : trace) :
  let run := for_each (main_loop_body w intelx ai)
               (entries k (List.map VDict ds)) h in
  (exists n, started (snd run) = firstn n (List.map header_of (entries k ds)))
  /\ (fst run = Ok tt ->
      started (snd run) = List.map header_of (entries k ds)).
Proof.
  revert k h. induction ds as [|d ds IH]; intros k h.
  - split; [now exists 0|reflexivity].
  - cbv zeta. unfold entries. cbn [List.map List.length seq combine for_each].
    fold (entries (S k) (List.map VDict ds)). fold (entries (S k) ds).
    pose proof (main_loop_body_started w intelx ai k d h) as Hd.
    destruct (main_loop_body w intelx ai (k, VDict d) h) as [[[]|x] e1] eqn:E;
      cbn [snd] in Hd.
    + rewrite (@bind_ok _ _ _ _ _ _ _ E). cbn [fst snd].
      rewrite started_app, Hd.
      destruct (IH (S k) (h ++ e1)) as [[n Hn] Hok]. split.
      * exists (S n). cbn [firstn app]. now rewrite Hn.
      * intros Hr. cbn [app]. now rewrite (Hok Hr).
    + rewrite (@bind_raise _ _ _ _ _ _ _ E). cbn [fst snd]. split.
      * exists 1. now rewrite Hd.
      * discriminate.
Qed.

(** X9: when the listing gives [ds], a run of [main] that comes to its end
    started on the first five records of [ds], in their order; a run that
    an exception ends started on the first few of these.  No run starts on
    a sixth record. *)
Lemma main_started (w : world) (target : pystr) (h : trace) (o l : dict)
  (ds : list dict) :
  let self := configured_service w in
  let h1 := search_history w h in
  let h2 := h1 ++ search_request_events self target in
  let sid := dict_get o (py "id") VNone in
  truthy (env_value (INTELX_API_KEY w)) = true ->
  answered_object (search_answer w self target h1) = Some o ->
  truthy sid = true ->
  answered_object (listing_answer w self sid h2) = Some l ->
  dict_get l (py "records") (VList []) = VList (List.map VDict ds) ->
  (exists n,
     started (snd (main w target h))
     = firstn n (List.map header_of (enumerate (firstn 5 ds)))) /\
  (fst (main w target h) = Ok tt ->
   started (snd (main w target h))
   = List.map header_of (enumerate (firstn 5 ds))).
Proof.
  intros self h1 h2 sid Hkey Hs Hsid Hl Hrec.
  assert (search w self target h1 = (Ok sid, search_request_events self target))
    as Es by (rewrite search_eq; now rewrite Hs).
  assert (get_results w self sid h2
          = (Ok (VList (List.map VDict ds)), [EvHttp (GetSearchResult self sid)]))
    as El by (rewrite get_results_eq; now rewrite Hl, Hrec).
  unfold main.
  rewrite (@bind_ok _ _ _ _ _ _ _ (IntelXService_init_ok w h Hkey)). norm_h.
  rewrite (@bind_ok _ _ _ _ _ _ _ (AIAnalyzer_init_eq w h)).
  fold (search_history w h). fold h1. fold self.
  rewrite (@bind_ok _ _ _ _ _ _ _ Es). rewrite Hsid. cbn [negb]. fold h2.
  rewrite (@bind_ok _ _ _ _ _ _ _ El).
  do 4 (cbv beta iota delta [py_len py_slice py_iter log];
        match goal with
        | |- context [bind (lift (Returns ?n)) ?f ?hh] =>
            rewrite (@bind_ok _ _ _ f hh n [] eq_refl)
        | |- context [bind (emit ?e) ?f ?hh] =>
            rewrite (@bind_ok _ _ _ f hh tt [e] eq_refl)
        end).
  rewrite List.firstn_map.
  cbn [fst snd]. rewrite !started_app.
  assert (started (analyzer_events w) = []) as ->.
  { unfold analyzer_events.
    destruct (truthy (env_value (OPENAI_API_KEY w))); reflexivity. }
  cbn [app started flat_map search_request_events].
  unfold enumerate. fold (entries 0 (List.map VDict (firstn 5 ds))).
  fold (entries 0 (firstn 5 ds)).
  match goal with
  | |- context [for_each _ _ ?hh] =>
      exact (for_each_started w self (configured_analyzer w) (firstn 5 ds) 0 hh)
  end.
Qed.

(** C6: a listing of two records whose first finding lists its credentials
    as strings.  Printing the first credential raises, nothing in [main]
    catches it, and the run ends there: it started on one record, not on
    the two that the first five of the listing comprise. *)
Theorem flat_credentials_end_the_run :
  get_results w_flat_credentials service (VStr (py "abc123")) []
  = (Ok (VList [VDict record1; VDict record2]),
     [EvHttp (GetSearchResult service (VStr (py "abc123")))]) /\
  fst (analyze_dump w_flat_credentials enabled (VStr long_preview) [])
  = Ok (VDict [(py "credentials",
                VList [VStr (py "alice@example.com:hunter2")])]) /\
  fst (main w_flat_credentials (py "example.com") [])
  = Raise (Exception AttributeError) /\
  started (snd (main w_flat_credentials (py "example.com") []))
  = [(1, VStr (py "dump-a.txt"))].
Proof. repeat split. Qed.


(** ** The four operations never raise *)


(** * Further properties of the code *)

(** ** The pattern search, completely *)

Lemma re_search_braces_needs_rbrace (s g : pystr) :
  re_search_braces s = Some g -> In c_rbrace s.
Proof.
  intros H. destruct (re_search_braces_some _ H) as (pre & body & post & -> & _).
  apply in_or_app. right. right. apply in_or_app. right. now left.
Qed.

(** X1: the pattern search succeeds exactly on the texts that hold an
    opening brace followed, anywhere later, by a closing brace, and its
    match is the part of the text from the first opening brace to the last
    closing brace. *)
Theorem re_search_braces_iff (s g : pystr) :
  re_search_braces s = Some g <->
  exists pre body post,
    s = pre ++ c_lbrace :: body ++ c_rbrace :: post /\
    g = c_lbrace :: body ++ [c_rbrace] /\
    ~ In c_lbrace pre /\ ~ In c_rbrace post.
Proof.
  split.
  - revert g. induction s as [|c t IH]; simpl; intros g H; [discriminate|].
    destruct (N.eqb_spec c c_lbrace) as [->|Hc].
    + destruct (upto_last_rbrace t) as [p|] eqn:E.
      * injection H as <-.
        destruct (upto_last_rbrace_some _ E) as (body & post & -> & -> & Hn).
        exists [], body, post. repeat split; auto.
      * exfalso. apply upto_last_rbrace_none in E. apply E.
        exact (re_search_braces_needs_rbrace _ H).
    + destruct (IH g H) as (pre & body & post & -> & -> & Hl & Hr).
      exists (c :: pre), body, post. repeat split; auto.
      intros [E|Hin]; [congruence|contradiction].
  - intros (pre & body & post & -> & -> & Hl & Hr).
    now apply re_search_braces_first_to_last.
Qed.

(** X3: searching the match again gives the match back: what
    [analyze_dump] hands to the decoder holds no longer match inside. *)
Theorem re_search_braces_idempotent (s g : pystr) :
  re_search_braces s = Some g -> re_search_braces g = Some g.
Proof.
  intros H. destruct (re_search_braces_some _ H) as (pre & body & post & _ & -> & _).
  exact (@re_search_braces_first_to_last [] body [] (fun x => x) (fun x => x)).
Qed.

Lemma re_search_braces_idempotent_witness :
  re_search_braces (py "Sure: {a} and {b}. Done") = Some (py "{a} and {b}") /\
  re_search_braces (py "{a} and {b}") = Some (py "{a} and {b}").
Proof.
  split; [reflexivity|].
  apply (@re_search_braces_idempotent (py "Sure: {a} and {b}. Done")).
  reflexivity.
Defined.

(** ** The snippet sent to the model *)



(** ** The run, step by step *)

Lemma search_run (w : world) (self : IntelXService) (term : pystr) (h : trace) :
  fst (search w self term h) = Ok (session_id (search_answer w self term h)).
Proof.
  rewrite search_eq. unfold session_id. now destruct (answered_object _).
Qed.

(** [main] with a key of the search service: the search, then either the
    end of the run on a false session identifier, or the listing and the
    records. *)
Lemma main_eq (w : world) (target : pystr) (h : trace) :
  truthy (env_value (INTELX_API_KEY w)) = true ->
  let self := configured_service w in
  let h1 := search_history w h in
  let sid := session_id (search_answer w self target h1) in
  let es := snd (search w self target h1) in
  let asked := analyzer_events w ++ es ++ [EvHttp (GetSearchResult self sid)] in
  let rest :=
    process_records w self (configured_analyzer w)
      (listed (listing_answer w self sid (h1 ++ es))) (h ++ asked) in
  main w target h =
  if truthy sid then (fst rest, asked ++ snd rest)
  else (Ok tt, analyzer_events w ++ es ++ [EvLog MsgNoResult LError]).
Proof.
  intros Hkey self h1 sid es asked rest.
  assert (search w self target h1 = (Ok sid, es)) as Es.
  { subst es sid. rewrite <- search_run. now destruct (search w self target h1). }
  unfold main.
  rewrite (@bind_ok _ _ _ _ _ _ _ (IntelXService_init_ok w h Hkey)). norm_h.
  rewrite (@bind_ok _ _ _ _ _ _ _ (AIAnalyzer_init_eq w h)).
  fold (search_history w h). fold h1. fold self.
  rewrite (@bind_ok _ _ _ _ _ _ _ Es).
  destruct (truthy sid); cbn [negb fst snd].
  - assert (get_results w self sid (h1 ++ es)
            = (Ok (listed (listing_answer w self sid (h1 ++ es))),
               [EvHttp (GetSearchResult self sid)])) as El
      by apply get_results_eq.
    rewrite (@bind_ok _ _ _ _ _ _ _ El).
    fold (process_records w self (configured_analyzer w)
            (listed (listing_answer w self sid (h1 ++ es)))).
    subst rest asked h1. unfold search_history. cbn [fst snd].
    now rewrite <- !app_assoc.
  - reflexivity.
Qed.

Lemma search_events_answered (w : world) (self : IntelXService) (term : pystr)
  (h : trace) (o : dict) :
  answered_object (search_answer w self term h) = Some o ->
  snd (search w self term h) = search_request_events self term.
Proof. intros E. rewrite search_eq. now rewrite E. Qed.

Lemma session_id_answered (o : outcome response) :
  truthy (session_id o) = true -> exists d, answered_object o = Some d.
Proof.
  unfold session_id. destruct (answered_object o) as [d|]; [eauto|discriminate].
Qed.

(** ** The listing *)

(** X5: [get_results] sends one listing request, for the identifier it is
    given, and returns the [records] field of the object answered as it is,
    or the empty list when the object has no such field. *)
Theorem get_results_records
  (w : world) (self : IntelXService) (search_id : value) (h : trace) :
  snd (get_results w self search_id h) = [EvHttp (GetSearchResult self search_id)]
  /\ (forall d v,
        answered_object (listing_answer w self search_id h) = Some d ->
        dict_lookup (py "records") d = Some v ->
        fst (get_results w self search_id h) = Ok v)
  /\ (forall d,
        answered_object (listing_answer w self search_id h) = Some d ->
        dict_lookup (py "records") d = None ->
        fst (get_results w self search_id h) = Ok (VList [])).
Proof.
  rewrite get_results_eq. cbn [fst snd]. split; [reflexivity|].
  split; intros d; [intros v|]; intros -> E; unfold dict_get; now rewrite E.
Qed.

(** X6: when the listing gives no record, because its call failed or
    because there is none, [main] reports zero records and returns; the
    trace is the same in both cases. *)
Theorem empty_listing_ends_run (w : world) (target : pystr) (h : trace) :
  let self := configured_service w in
  let h1 := search_history w h in
  let sid := session_id (search_answer w self target h1) in
  truthy (env_value (INTELX_API_KEY w)) = true ->
  truthy sid = true ->
  listed (listing_answer w self sid (h1 ++ search_request_events self target))
  = VList [] ->
  main w target h
  = (Ok tt,
     analyzer_events w ++ search_request_events self target
     ++ [EvHttp (GetSearchResult self sid); EvLog (MsgFound 0) LSuccess]).
Proof.
  intros self h1 sid Hkey Hsid Hl.
  destruct (session_id_answered _ Hsid) as [o Ho].
  pose proof (search_events_answered w self target h1 Ho) as Es.
  rewrite (main_eq w target h Hkey). fold self h1 sid. rewrite Hsid, Es, Hl.
  cbn. now rewrite <- !app_assoc.
Qed.

Lemma empty_listing_ends_run_witness :
  listed (Throws Timeout) = VList [] /\
  main w_listing_timeout (py "example.com") []
  = (Ok tt,
     [EvLog (MsgSearching (py "example.com")) LInfo;
      EvHttp (PostSearch service (py "example.com"));
      EvHttp (GetSearchResult service (VStr (py "abc123")));
      EvLog (MsgFound 0) LSuccess]).
Proof.
  split; [reflexivity|].
  apply (empty_listing_ends_run w_listing_timeout (py "example.com") []);
    reflexivity.
Defined.

(** X7: a search answered with an object whose [id] is missing or false
    (null, empty, zero) ends the run like a failed search, without the
    search error: [main] logs that nothing was found and asks no listing. *)
Theorem false_session_id_stops_run
  (w : world) (target : pystr) (h : trace) (o : dict) :
  let self := configured_service w in
  truthy (env_value (INTELX_API_KEY w)) = true ->
  answered_object (search_answer w self target (search_history w h)) = Some o ->
  truthy (dict_get o (py "id") VNone) = false ->
  main w target h
  = (Ok tt,
     analyzer_events w ++ search_request_events self target
     ++ [EvLog MsgNoResult LError]).
Proof.
  intros self Hkey Ho Hid.
  rewrite (main_eq w target h Hkey). fold self.
  rewrite (search_events_answered w self target (search_history w h) Ho).
  unfold session_id. rewrite Ho, Hid. reflexivity.
Qed.

Lemma false_session_id_stops_run_witness :
  answered_object
    (search_answer w_search_no_id (configured_service w_search_no_id)
       (py "example.com") [])
  = Some [] /\
  main w_search_no_id (py "example.com") []
  = (Ok tt,
     [EvLog (MsgSearching (py "example.com")) LInfo;
      EvHttp (PostSearch service (py "example.com"));
      EvLog MsgNoResult LError]).
Proof.
  split; [reflexivity|].
  apply (@false_session_id_stops_run w_search_no_id (py "example.com") [] []);
    reflexivity.
Defined.

(** X8: [get_results] does not check what the [records] field holds: when
    it is neither a list, a string nor an object (null, a number, a
    boolean), [len(records)] raises in [main] right after the listing
    request, before any record is counted or read. *)
Theorem unsized_records_raise
  (w : world) (target : pystr) (h : trace) (e : exc) :
  let self := configured_service w in
  let h1 := search_history w h in
  let sid := session_id (search_answer w self target h1) in
  truthy (env_value (INTELX_API_KEY w)) = true ->
  truthy sid = true ->
  py_len (listed (listing_answer w self sid
                    (h1 ++ search_request_events self target)))
  = Throws e ->
  main w target h
  = (Raise (Exception e),
     analyzer_events w ++ search_request_events self target
     ++ [EvHttp (GetSearchResult self sid)]).
Proof.
  intros self h1 sid Hkey Hsid Hl.
  destruct (session_id_answered _ Hsid) as [o Ho].
  pose proof (search_events_answered w self target h1 Ho) as Es.
  rewrite (main_eq w target h Hkey). fold self h1 sid. rewrite Hsid, Es.
  unfold process_records.
  match goal with
  | |- context [bind (lift ?o') ?f ?hh] =>
      assert (bind (lift o') f hh = (Raise (Exception e), [])) as ->
        by (apply bind_raise; now rewrite Hl)
  end.
  cbn [fst snd]. now rewrite app_nil_r, <- ?app_assoc.
Qed.

Lemma unsized_records_raise_witness :
  py_len VNone = Throws TypeError /\
  main w_null_records (py "example.com") []
  = (Raise (Exception TypeError),
     [EvLog (MsgSearching (py "example.com")) LInfo;
      EvHttp (PostSearch service (py "example.com"));
      EvHttp (GetSearchResult service (VStr (py "abc123")))]).
Proof.
  split; [reflexivity|].
  apply (@unsized_records_raise w_null_records (py "example.com") []
           TypeError); reflexivity.
Defined.

Lemma main_started_witness :
  answered_object
    (search_answer w_six_records (configured_service w_six_records)
       (py "example.com") [])
  = Some [(py "id", VStr (py "abc123"))] /\
  started (snd (main w_six_records (py "example.com") []))
  = [(1, VStr (py "dump-a.txt")); (2, VStr (py "dump-b.txt"));
     (3, VStr (py "dump-a.txt")); (4, VStr (py "dump-b.txt"));
     (5, VStr (py "dump-a.txt"))].
Proof.
  split; [reflexivity|].
  apply (proj2 (@main_started w_six_records (py "example.com") []
                  [(py "id", VStr (py "abc123"))]
                  [(py "records",
                    VList [VDict record1; VDict record2; VDict record1;
                           VDict record2; VDict record1; VDict record2])]
                  [record1; record2; record1; record2; record1; record2]
                  eq_refl eq_refl eq_refl eq_refl eq_refl)).
  reflexivity.
Defined.

(** ** The requests of a run *)

Lemma http_requests_app (a b : trace) :
  http_requests (a ++ b) = http_requests a + http_requests b.
Proof. unfold http_requests. now rewrite filter_app, length_app. Qed.

Lemma chat_requests_app (a b : trace) :
  chat_requests (a ++ b) = chat_requests a + chat_requests b.
Proof. unfold chat_requests. now rewrite filter_app, length_app. Qed.

Lemma sends_le (A : Type) (n k n' k' : nat) (m : M A) :
  sends n k m -> n <= n' -> k <= k' -> sends n' k' m.
Proof. intros Hm Hn Hk h. destruct (Hm h). split; lia. Qed.

Lemma sends_ret (A : Type) (a : A) : sends 0 0 (ret a).
Proof. intros h. split; apply Nat.le_refl. Qed.

Lemma sends_raise (A : Type) (x : exn) : sends 0 0 (@raise A x).
Proof. intros h. split; apply Nat.le_refl. Qed.

Lemma sends_lift (A : Type) (o : outcome A) : sends 0 0 (lift o).
Proof. destruct o; [apply sends_ret|apply sends_raise]. Qed.

Lemma sends_log (m : message) (t : log_type) : sends 0 0 (log m t).
Proof. intros h. split; apply Nat.le_refl. Qed.

Lemma sends_print (l : line) : sends 0 0 (print l).
Proof. intros h. split; apply Nat.le_refl. Qed.

Lemma sends_bind (A B : Type) (n1 k1 n2 k2 : nat) (m : M A) (f : A -> M B) :
  sends n1 k1 m -> (forall a, sends n2 k2 (f a)) ->
  sends (n1 + n2) (k1 + k2) (bind m f).
Proof.
  intros Hm Hf h. unfold bind. destruct (Hm h) as [Hn Hk].
  destruct (m h) as [[a|x] e1]; cbn [snd] in *.
  - destruct (Hf a (h ++ e1)) as [Hn' Hk'].
    destruct (f a (h ++ e1)) as [r e2]; cbn [snd] in *.
    rewrite http_requests_app, chat_requests_app. lia.
  - lia.
Qed.

Lemma sends_try_except (A : Type) (n1 k1 n2 k2 : nat) (body : M A)
  (handler : exc -> M A) :
  sends n1 k1 body -> (forall e, sends n2 k2 (handler e)) ->
  sends (n1 + n2) (k1 + k2) (try_except body handler).
Proof.
  intros Hb Hh h. unfold try_except. destruct (Hb h) as [Hn Hk].
  destruct (body h) as [[a|[c|e]] e1]; cbn [snd] in *; try lia.
  destruct (Hh e (h ++ e1)) as [Hn' Hk'].
  destruct (handler e (h ++ e1)) as [r e2]; cbn [snd] in *.
  rewrite http_requests_app, chat_requests_app. lia.
Qed.

Lemma sends_for_each (A : Type) (n k : nat) (body : A -> M unit) (l : list A) :
  (forall a, sends n k (body a)) ->
  sends (List.length l * n) (List.length l * k) (for_each body l).
Proof.
  intros Hb. induction l as [|a l IH]; cbn [for_each List.length].
  - apply sends_ret.
  - exact (@sends_bind _ _ _ _ _ _ _ (fun _ : unit => for_each body l)
             (Hb a) (fun _ => IH)).
Qed.

Lemma sends_requests (w : world) (r : request) : sends 1 0 (requests w r).
Proof.
  intros h. unfold requests, bind, emit.
  destruct (lift (http w (h ++ [EvHttp r]) r) (h ++ [EvHttp r])) as [x e] eqn:E.
  assert (e = []) as -> by (destruct (http w _ r); now injection E as _ <-).
  split; cbn; lia.
Qed.

Lemma sends_chat (w : world) (user : pystr) :
  sends 0 1 (chat_completions_create w user).
Proof.
  intros h. unfold chat_completions_create, bind, emit.
  destruct (lift (chat w (h ++ [EvChat user]) user) (h ++ [EvChat user]))
    as [x e] eqn:E.
  assert (e = []) as -> by (destruct (chat w _ user); now injection E as _ <-).
  split; cbn; lia.
Qed.

Lemma sends_if (A : Type) (n1 k1 n2 k2 : nat) (b : bool) (m1 m2 : M A) :
  sends n1 k1 m1 -> sends n2 k2 m2 ->
  sends (Nat.max n1 n2) (Nat.max k1 k2) (if b then m1 else m2).
Proof.
  intros H1 H2. destruct b; [apply (sends_le H1)|apply (sends_le H2)]; lia.
Qed.

Lemma sends_option (A B : Type) (n1 k1 n2 k2 : nat) (o : option B)
  (m1 : B -> M A) (m2 : M A) :
  (forall b, sends n1 k1 (m1 b)) -> sends n2 k2 m2 ->
  sends (Nat.max n1 n2) (Nat.max k1 k2)
    (match o with Some b => m1 b | None => m2 end).
Proof.
  intros H1 H2. destruct o; [apply (sends_le (H1 b))|apply (sends_le H2)]; lia.
Qed.

Lemma sends_for_each_silent (A : Type) (body : A -> M unit) (l : list A) :
  (forall a, sends 0 0 (body a)) -> sends 0 0 (for_each body l).
Proof.
  intros Hb. apply (sends_le (@sends_for_each _ _ _ _ l Hb)); lia.
Qed.

Lemma sends_bind_post (A B : Type) (Q : A -> Prop) (n1 k1 n2 k2 : nat)
  (m : M A) (f : A -> M B) :
  (forall h a e, m h = (Ok a, e) -> Q a) ->
  sends n1 k1 m -> (forall a, Q a -> sends n2 k2 (f a)) ->
  sends (n1 + n2) (k1 + k2) (bind m f).
Proof.
  intros HQ Hm Hf h. unfold bind. destruct (Hm h) as [Hn Hk].
  destruct (m h) as [[a|x] e1] eqn:E; cbn [snd] in *.
  - destruct (Hf a (HQ _ _ _ E) (h ++ e1)) as [Hn' Hk'].
    destruct (f a (h ++ e1)) as [r e2]; cbn [snd] in *.
    rewrite http_requests_app, chat_requests_app. lia.
  - lia.
Qed.

(** Counts the requests of a computation along its steps. *)
Ltac sends_steps :=
  repeat first
    [ apply sends_ret | apply sends_raise | apply sends_lift
    | apply sends_log | apply sends_print
    | apply sends_requests | apply sends_chat
    | apply sends_for_each_silent; intros ?
    | eapply sends_if
    | eapply sends_option; [intros ?|]
    | eapply sends_bind; [|intros ?]
    | eapply sends_try_except; [|intros ?] ].

Lemma search_sends (w : world) (self : IntelXService) (term : pystr) :
  sends 1 0 (search w self term).
Proof.
  eapply sends_le; [unfold search; sends_steps|cbn; lia..].
Qed.

Lemma get_results_sends (w : world) (self : IntelXService) (search_id : value) :
  sends 1 0 (get_results w self search_id).
Proof.
  eapply sends_le; [unfold get_results; sends_steps|cbn; lia..].
Qed.

Lemma get_preview_sends (w : world) (self : IntelXService) (item : value) :
  sends 2 0 (get_preview w self item).
Proof.
  eapply sends_le; [unfold get_preview; sends_steps|cbn; lia..].
Qed.

Lemma analyze_dump_sends (w : world) (self : AIAnalyzer) (content : value) :
  sends 0 1 (analyze_dump w self content).
Proof.
  eapply sends_le; [unfold analyze_dump; sends_steps|cbn; lia..].
Qed.

Lemma print_credential_sends (c : value) : sends 0 0 (print_credential c).
Proof.
  eapply sends_le; [unfold print_credential; sends_steps|cbn; lia..].
Qed.

Lemma main_loop_body_sends (w : world) (intelx : IntelXService)
  (ai : AIAnalyzer) (entry : nat * value) :
  sends 2 1 (main_loop_body w intelx ai entry).
Proof.
  destruct entry as [idx item].
  eapply sends_le;
    [unfold main_loop_body;
     repeat first
       [ apply get_preview_sends | apply analyze_dump_sends
       | apply print_credential_sends | progress sends_steps ]
    |cbn; lia..].
Qed.

Lemma enumerate_length (A : Type) (l : list A) :
  List.length (enumerate l) = List.length l.
Proof.
  unfold enumerate. rewrite length_combine, length_seq. apply Nat.min_id.
Qed.

Lemma sliced_items (records top : value) (items : list value) :
  py_slice 5 records = Returns top -> py_iter top = Returns items ->
  List.length items <= 5.
Proof.
  destruct records as [| | | |s|l|d]; try discriminate; cbn [py_slice];
    intros E1 E2.
  - assert (top = VStr (firstn 5 s)) as -> by congruence.
    cbn [py_iter] in E2.
    assert (items = List.map (fun c => VStr [c]) (firstn 5 s)) as ->
      by congruence.
    rewrite length_map. apply firstn_le_length.
  - assert (top = VList (firstn 5 l)) as -> by congruence.
    cbn [py_iter] in E2.
    assert (items = firstn 5 l) as -> by congruence.
    apply firstn_le_length.
Qed.

Lemma lift_ok (A : Type) (o : outcome A) (h : trace) (a : A) (e : trace) :
  lift o h = (Ok a, e) -> o = Returns a.
Proof. destruct o; [now intros [= ->]|discriminate]. Qed.

Lemma process_records_sends (w : world) (intelx : IntelXService)
  (ai : AIAnalyzer) (records : value) :
  sends 10 5 (process_records w intelx ai records).
Proof.
  unfold process_records.
  apply (@sends_bind _ _ 0 0 10 5); [apply sends_lift|intros n].
  apply (@sends_bind _ _ 0 0 10 5); [apply sends_log|intros _].
  apply (@sends_bind_post _ _
           (fun top => forall items, py_iter top = Returns items ->
                                     List.length items <= 5) 0 0 10 5).
  { intros h top e E items Hit. apply lift_ok in E.
    eapply sliced_items; eassumption. }
  { apply sends_lift. }
  intros top Htop.
  apply (@sends_bind_post _ _ (fun items => List.length items <= 5) 0 0 10 5).
  { intros h items e E. apply lift_ok in E. now apply Htop. }
  { apply sends_lift. }
  intros items Hitems.
  eapply sends_le;
    [apply sends_for_each; intros entry; apply main_loop_body_sends|..];
    rewrite enumerate_length; lia.
Qed.


(** ** A run without the analyzer *)

#[local] Hint Extern 1 (no_finding _) => exact I : core.

Lemma main_loop_body_no_finding (w : world) (intelx : IntelXService)
  (ai : AIAnalyzer) (entry : nat * value) :
  active ai = false ->
  obeys is_exception no_finding (main_loop_body w intelx ai entry).
Proof.
  intros Hoff. unfold main_loop_body. destruct entry as [idx item].
  repeat match goal with
         | |- obeys _ _ (bind (analyze_dump _ _ _) _) =>
             apply obeys_bind_post with (Q := fun a => a = VNone);
             [intros ? ? ?; rewrite analyze_dump_disabled by assumption;
              now intros [= <- _]
             |intros ?; rewrite analyze_dump_disabled by assumption;
              split; [discriminate|constructor]
             |intros ? ->; cbn [truthy]]
         | |- obeys _ _ (bind (get_preview _ _ _) _) =>
             apply obeys_bind; [solve [obeys_steps; auto]|intros ?]
         | |- obeys _ _ (bind _ _) => apply obeys_bind; [|intros ?]
         | |- obeys _ _ (if ?b then _ else _) => destruct b
         | |- _ => solve [obeys_steps; auto]
         end.
Qed.

(** X11: with the key of the language model missing, a run of [main] sends
    no completion request and prints no risk, summary or credential line,
    whatever the services answer. *)
Theorem disabled_analyzer_prints_no_finding
  (w : world) (target : pystr) (h : trace) :
  truthy (env_value (INTELX_API_KEY w)) = true ->
  truthy (env_value (OPENAI_API_KEY w)) = false ->
  Forall no_finding (snd (main w target h)).
Proof.
  intros Hkey Hoff.
  assert (obeys is_exception no_finding (main w target)) as H;
    [|exact (proj2 (H h))].
  unfold main.
  apply obeys_bind_post with (Q := fun _ => True); [trivial| |intros intelx _].
  { intros h'. rewrite IntelXService_init_ok by assumption.
    split; [discriminate|constructor]. }
  apply obeys_bind_post with (Q := fun ai => active ai = false).
  { intros h' a e. rewrite AIAnalyzer_init_eq. intros [= <- _]. exact Hoff. }
  { intros h'. rewrite AIAnalyzer_init_eq. split; [discriminate|].
    unfold analyzer_events. rewrite Hoff. repeat constructor. }
  intros ai Hai. obeys_steps; auto.
  now apply main_loop_body_no_finding.
Qed.

Lemma disabled_analyzer_prints_no_finding_witness :
  truthy (env_value (OPENAI_API_KEY w_no_openai_key)) = false /\
  Forall no_finding (snd (main w_no_openai_key (py "example.com") [])).
Proof.
  split; [reflexivity|].
  apply (disabled_analyzer_prints_no_finding w_no_openai_key
           (py "example.com") []); reflexivity.
Defined.

(** ** Runs that come to their end *)

Lemma never_raises_ok (m : M unit) (h : trace) :
  never_raises m -> fst (m h) = Ok tt.
Proof.
  intros H. destruct (H h) as [Hr _].
  destruct (fst (m h)) as [[]|x]; [reflexivity|]. destruct (Hr x eq_refl).
Qed.

Lemma never_raises_returns (A : Type) (a : A) : never_raises (lift (Returns a)).
Proof. apply obeys_ret. Qed.

Lemma never_raises_for_each (A : Type) (body : A -> M unit) (l : list A) :
  (forall a, In a l -> never_raises (body a)) -> never_raises (for_each body l).
Proof.
  induction l as [|a l IH]; intros Hb; cbn [for_each].
  - apply obeys_ret.
  - apply obeys_bind; [apply Hb; now left|intros _].
    apply IH. intros b Hin. apply Hb. now right.
Qed.

Lemma print_credential_never_raises (c : dict) :
  never_raises (print_credential (VDict c)).
Proof.
  unfold print_credential. cbv beta iota delta [py_get].
  apply obeys_bind; [apply never_raises_returns|intros email].
  apply obeys_bind; [apply never_raises_returns|intros password].
  apply obeys_bind; [|intros secret; now apply obeys_emit].
  destruct (truthy password); [apply obeys_ret|apply never_raises_returns].
Qed.

Lemma get_preview_never_raises (w : world) (self : IntelXService) (d : dict) :
  never_raises (get_preview w self (VDict d)).
Proof.
  intros h. rewrite get_preview_eq. split; [|now apply Forall_forall].
  destruct (preview_answer w self d h) as [res|e]; [|discriminate].
  destruct (accepted res); [discriminate|]. cbn [fst].
  destruct (view_answer w self d h); discriminate.
Qed.

Lemma get_preview_text (w : world) (self : IntelXService) (d : dict)
  (h : trace) (content : value) (e : trace) :
  get_preview w self (VDict d) h = (Ok content, e) ->
  truthy content = true -> exists s, content = VStr s.
Proof.
  rewrite get_preview_eq.
  destruct (preview_answer w self d h) as [res|x].
  - destruct (accepted res); [intros [= <- _]; eauto|].
    destruct (view_answer w self d h) as [rv|x]; intros [= <- _].
    + destruct (status_code rv =? 200)%Z; [eauto|discriminate].
    + discriminate.
  - intros [= <- _]. discriminate.
Qed.

Lemma printable_truthy_credentials (creds : value) :
  printable_credentials creds = true -> truthy creds = true ->
  exists l, creds = VList l /\ forallb is_dict l = true.
Proof.
  unfold printable_credentials. intros H Ht. rewrite Ht in H. cbn in H.
  destruct creds; try discriminate. eauto.
Qed.

(** The lines of a finding that can be printed are printed without an
    exception. *)
Lemma print_finding_never_raises (analysis : value) :
  printable_finding analysis = true ->
  (analysis = VNone \/ exists o, analysis = VDict o) ->
  never_raises
    (if truthy analysis then
       risk <- lift (py_get analysis (py "risk_level") (VStr (py "Unknown"))) ;;
       let color_risk := if eq_str risk (py "High") then RED else YELLOW in
       print (RiskLine color_risk risk) ;;
       summary <- lift (py_get analysis (py "summary") VNone) ;;
       print (SummaryLine summary) ;;
       creds <- lift (py_get analysis (py "credentials") (VList [])) ;;
       if truthy creds then
         n <- lift (py_len creds) ;;
         print (CredentialsHeader n) ;;
         cs <- lift (py_iter creds) ;;
         for_each print_credential cs
       else ret tt
     else log MsgNoAnalysis LWarn).
Proof.
  intros Hp [->|[o ->]]; [now apply obeys_emit|].
  destruct (truthy (VDict o)); [|now apply obeys_emit].
  cbv beta iota delta [py_get]. cbn [printable_finding] in Hp.
  apply obeys_bind; [apply never_raises_returns|intros risk].
  cbv zeta.
  apply obeys_bind; [now apply obeys_emit|intros _].
  apply obeys_bind; [apply never_raises_returns|intros summary].
  apply obeys_bind; [now apply obeys_emit|intros _].
  apply obeys_bind_post
    with (Q := fun creds => creds = dict_get o (py "credentials") (VList []));
    [now intros h a e [= <- _]|apply never_raises_returns|intros creds ->].
  destruct (truthy (dict_get o (py "credentials") (VList []))) eqn:Et;
    [|apply obeys_ret].
  destruct (printable_truthy_credentials _ Hp Et) as (l & -> & Hl).
  cbv beta iota delta [py_len py_iter].
  apply obeys_bind; [apply never_raises_returns|intros n].
  apply obeys_bind; [now apply obeys_emit|intros _].
  apply obeys_bind_post with (Q := fun cs => cs = l);
    [now intros h a e [= <- _]|apply never_raises_returns|intros cs ->].
  apply never_raises_for_each. intros c Hin.
  rewrite forallb_forall in Hl. specialize (Hl c Hin).
  destruct c; try discriminate. apply print_credential_never_raises.
Qed.

Lemma analysis_of_shape (self : AIAnalyzer) (answer : outcome completion) :
  analysis_of self answer = VNone \/ exists o, analysis_of self answer = VDict o.
Proof.
  unfold analysis_of. destruct (active self); [|now left].
  destruct answer as [c|e]; [|now left].
  destruct (found c) as [g|] eqn:Ef; [|now left].
  destruct (json_loads g) as [v|e] eqn:Ev; [|now left].
  destruct (found_starts_with_brace c Ef) as (body & ->).
  right. exact (json_loads_object _ Ev).
Qed.

Lemma analyze_dump_never_raises (w : world) (self : AIAnalyzer) (s : pystr) :
  never_raises (analyze_dump w self (VStr s)).
Proof.
  intros h. split; [|now apply Forall_forall].
  intros x. rewrite analyze_dump_result. discriminate.
Qed.

Lemma main_loop_body_never_raises (w : world) (intelx : IntelXService)
  (ai : AIAnalyzer) (idx : nat) (d : dict) :
  printable_findings w ai ->
  never_raises (main_loop_body w intelx ai (idx, VDict d)).
Proof.
  intros Hw. unfold main_loop_body.
  apply obeys_bind; [apply never_raises_returns|intros name].
  apply obeys_bind; [apply never_raises_returns|intros date].
  apply obeys_bind; [now apply obeys_emit|intros _].
  apply obeys_bind; [now apply obeys_emit|intros _].
  apply obeys_bind_post
    with (Q := fun content => truthy content = true ->
                              exists s, content = VStr s).
  { intros h content e E. exact (get_preview_text _ _ _ _ E). }
  { apply get_preview_never_raises. }
  intros content Hc. destruct (truthy content) eqn:Et; cbn [negb];
    [|now apply obeys_emit].
  destruct (Hc eq_refl) as [s ->].
  apply obeys_bind; [apply never_raises_returns|intros snippet].
  apply obeys_bind; [now apply obeys_emit|intros _].
  apply obeys_bind; [now apply obeys_emit|intros _].
  apply obeys_bind_post
    with (Q := fun analysis =>
                 printable_finding analysis = true /\
                 (analysis = VNone \/ exists o, analysis = VDict o)).
  { intros h analysis e E.
    assert (Ok analysis = Ok (analysis_of ai (chat_answer w s h))) as [= ->]
      by (rewrite <- analyze_dump_result; now rewrite E).
    split; [apply Hw|apply analysis_of_shape]. }
  { apply analyze_dump_never_raises. }
  intros analysis [Hp Hs]. now apply print_finding_never_raises.
Qed.

Lemma process_records_never_raises (w : world) (intelx : IntelXService)
  (ai : AIAnalyzer) (ds : list dict) :
  printable_findings w ai ->
  never_raises (process_records w intelx ai (VList (List.map VDict ds))).
Proof.
  intros Hw. unfold process_records. cbv beta iota delta [py_len py_slice py_iter].
  apply obeys_bind; [apply never_raises_returns|intros n].
  apply obeys_bind; [now apply obeys_emit|intros _].
  apply obeys_bind_post
    with (Q := fun top => top = VList (List.map VDict (firstn 5 ds))).
  { intros h a e E. apply lift_ok in E.
    assert (a = VList (firstn 5 (List.map VDict ds))) as -> by congruence.
    now rewrite firstn_map. }
  { apply never_raises_returns. }
  intros top ->.
  apply obeys_bind_post
    with (Q := fun items => items = List.map VDict (firstn 5 ds));
    [now intros h a e [= <- _]|apply never_raises_returns|intros items ->].
  apply never_raises_for_each. intros [idx item] Hin.
  apply in_combine_r in Hin. apply in_map_iff in Hin.
  destruct Hin as (d & <- & _). now apply main_loop_body_never_raises.
Qed.



(** ** Where a short content comes from *)

(** X13: a content of at most 10 characters that [get_preview] returns is
    never the preview: the preview endpoint answered, its answer was not
    accepted, and the content is the body of a 200 answer of the view
    endpoint. *)
Theorem short_content_comes_from_view
  (w : world) (self : IntelXService) (d : dict) (h : trace) (s : pystr) :
  fst (get_preview w self (VDict d) h) = Ok (VStr s) ->
  List.length s <= 10 ->
  exists res res_view,
    preview_answer w self d h = Returns res /\
    accepted res = false /\
    view_answer w self d h = Returns res_view /\
    status_code res_view = 200%Z /\
    text res_view = s /\
    snd (get_preview w self (VDict d) h)
    = [EvHttp (preview_request self d); EvHttp (view_request w self d)].
Proof.
  rewrite get_preview_eq. intros H Hlen.
  destruct (preview_answer w self d h) as [res|e]; [|discriminate].
  destruct (accepted res) eqn:Ea.
  - injection H as <-. apply accepted_spec in Ea. lia.
  - cbn [fst snd] in *. destruct (view_answer w self d h) as [rv|e];
      [|discriminate].
    destruct (Z.eqb_spec (status_code rv) 200) as [E|E]; [|discriminate].
    injection H as <-. exists res, rv. repeat split; auto.
Qed.

Lemma short_content_comes_from_view_witness :
  fst (get_preview w_empty_view service (VDict record2) []) = Ok (VStr []) /\
  exists res res_view,
    preview_answer w_empty_view service record2 [] = Returns res /\
    accepted res = false /\
    view_answer w_empty_view service record2 [] = Returns res_view /\
    status_code res_view = 200%Z /\
    text res_view = [] /\
    snd (get_preview w_empty_view service (VDict record2) [])
    = [EvHttp (preview_request service record2);
       EvHttp (view_request w_empty_view service record2)].
Proof.
  split; [reflexivity|].
  apply (@short_content_comes_from_view w_empty_view service record2 [] []);
    [reflexivity|cbn; lia].
Defined.

(** ** The key on the wire *)

Lemma main_loop_body_carries_key (w : world) (ai : AIAnalyzer)
  (entry : nat * value) :
  obeys (fun _ => True) (carries_key w)
    (main_loop_body w (configured_service w) ai entry).
Proof.
  unfold main_loop_body. destruct entry as [idx item].
  obeys_steps; cbn; auto.
  unfold analyze_dump. obeys_steps; cbn; auto.
Qed.



(** ** The snippet shown *)

Lemma get_preview_returns (w : world) (self : IntelXService) (item : value)
  (h : trace) (content : value) (e : trace) :
  get_preview w self item h = (Ok content, e) ->
  content = VNone \/ exists s, content = VStr s.
Proof.
  destruct item as [| | | | | |d]; try discriminate.
  rewrite get_preview_eq.
  destruct (preview_answer w self d h) as [res|x].
  - destruct (accepted res); [intros [= <- _]; eauto|].
    destruct (view_answer w self d h) as [rv|x]; intros [= <- _]; [|now left].
    destruct (status_code rv =? 200)%Z; eauto.
  - intros [= <- _]. now left.
Qed.

#[local] Hint Extern 1 (capped_snippet _) => exact I : core.

Lemma main_loop_body_caps_snippet (w : world) (intelx : IntelXService)
  (ai : AIAnalyzer) (entry : nat * value) :
  obeys (fun _ => True) capped_snippet (main_loop_body w intelx ai entry).
Proof.
  unfold main_loop_body. destruct entry as [idx item].
  do 4 (apply obeys_bind; [solve [obeys_steps; auto]|intros ?]).
  apply obeys_bind_post
    with (Q := fun content => content = VNone \/ exists s, content = VStr s).
  { intros h content e. apply get_preview_returns. }
  { unfold get_preview. obeys_steps; auto. }
  intros content [->|[s ->]]; [now apply obeys_emit|].
  destruct (negb (truthy (VStr s))); [now apply obeys_emit|].
  apply obeys_bind_post with (Q := fun snippet => snippet = VStr (firstn 100 s)).
  { intros h snippet e E. apply lift_ok in E. cbn [py_slice] in E. congruence. }
  { apply obeys_ret. }
  intros snippet ->.
  apply obeys_bind.
  { apply obeys_emit. exists (firstn 100 s). split; [reflexivity|].
    apply firstn_le_length. }
  intros _. obeys_steps; auto.
  unfold analyze_dump. obeys_steps; auto.
Qed.

(** X15: every preview snippet a run prints is a string of at most 100
    characters, whatever the length of the content fetched. *)
Theorem preview_snippets_are_capped (w : world) (target : pystr) (h : trace) :
  Forall capped_snippet (snd (main w target h)).
Proof.
  assert (obeys (fun _ => True) capped_snippet (main w target)) as H;
    [|exact (proj2 (H h))].
  unfold main, IntelXService_init, AIAnalyzer_init. cbv zeta.
  obeys_steps; auto.
  apply main_loop_body_caps_snippet.
Qed.

(** ** From the search to the listing *)

#[local] Hint Extern 1 (not_listing _) => exact I : core.

Lemma process_records_not_listing (w : world) (intelx : IntelXService)
  (ai : AIAnalyzer) (records : value) :
  obeys (fun _ => True) not_listing (process_records w intelx ai records).
Proof.
  unfold process_records. obeys_steps; auto.
  match goal with
  | |- obeys _ _ (main_loop_body _ _ _ ?entry) =>
      unfold main_loop_body; destruct entry as [idx item]
  end.
  obeys_steps; auto.
  unfold analyze_dump. obeys_steps; auto.
Qed.

Lemma search_not_listing (w : world) (self : IntelXService) (term : pystr)
  (h : trace) :
  Forall not_listing (snd (search w self term h)).
Proof.
  rewrite search_eq. unfold search_request_events.
  destruct (answered_object _); repeat constructor.
Qed.

(** X16: every listing request of a run is made with the configured key
    and for the session identifier the search returned, which is then a
    true value: no listing is asked after a search that gave none. *)
Theorem listing_uses_session_id
  (w : world) (target : pystr) (h : trace) (self : IntelXService)
  (search_id : value) :
  truthy (env_value (INTELX_API_KEY w)) = true ->
  In (EvHttp (GetSearchResult self search_id)) (snd (main w target h)) ->
  self = configured_service w /\
  search_id
  = session_id (search_answer w (configured_service w) target
                  (search_history w h)) /\
  truthy search_id = true.
Proof.
  intros Hkey Hin. rewrite (main_eq w target h Hkey) in Hin.
  assert (forall events, Forall not_listing events ->
            ~ In (EvHttp (GetSearchResult self search_id)) events) as Hno.
  { intros events Hf Hi. rewrite Forall_forall in Hf. exact (Hf _ Hi). }
  assert (~ In (EvHttp (GetSearchResult self search_id)) (analyzer_events w))
    as Ha.
  { apply Hno. unfold analyzer_events.
    destruct (truthy (env_value (OPENAI_API_KEY w))); repeat constructor. }
  pose proof (Hno _ (search_not_listing w (configured_service w) target
                       (search_history w h))) as Hs.
  destruct (truthy (session_id _)) eqn:Et; cbn [snd] in Hin.
  - rewrite !in_app_iff in Hin.
    destruct Hin as [[Hin|[Hin|[Hin|[]]]]|Hin]; try contradiction.
    + injection Hin as <- <-. now repeat split.
    + exfalso. revert Hin. apply Hno.
      apply (process_records_not_listing w (configured_service w)
               (configured_analyzer w)).
  - rewrite !in_app_iff in Hin.
    destruct Hin as [Hin|[Hin|[Hin|[]]]]; try contradiction. discriminate.
Qed.

Lemma listing_uses_session_id_witness :
  In (EvHttp (GetSearchResult service (VStr (py "abc123"))))
    (snd (main w_demo (py "example.com") [])) /\
  VStr (py "abc123")
  = session_id (search_answer w_demo (configured_service w_demo)
                  (py "example.com") (search_history w_demo [])).
Proof.
  assert (In (EvHttp (GetSearchResult service (VStr (py "abc123"))))
            (snd (main w_demo (py "example.com") []))) as Hin
    by (vm_compute; tauto).
  split; [exact Hin|].
  apply (@listing_uses_session_id w_demo (py "example.com") [] service
           (VStr (py "abc123")) eq_refl Hin).
Defined.
